(** * Scraping notebooks: a table of a fetched page written to a CSV file

    A shallow embedding of the two notebooks of the workshop,

    - [us-senate-press-gallery/U.S. Senate Press Gallery - complete.ipynb]
    - [sd-warn/South Dakota WARN notices.ipynb]

    run top to bottom, together with the parts of the Python libraries their
    statements call: [str.strip], the tree queries [find], [find_all] and
    [.text] of [bs4], the text layer of [open], and [csv.writer] (with
    [csv.reader] for reading a written file back). *)

From Stdlib Require Import NArith ZArith Strings.Byte Ascii String List Lia.
From stdpp Require Import gmap strings list.

Set Warnings "-register-all".

(** ** Python values *)

(** A Python [str] is a sequence of Unicode code points. *)
Module Py.

Definition str : Type := list N.

(** An ASCII literal as a [str]. *)
Definition of_string (s : string) : str :=
  map N_of_ascii (list_ascii_of_string s).

(** [str.isspace] on one code point: the characters [str.strip()] removes. *)
Definition isspace (c : N) : bool :=
  ((9 <=? c) && (c <=? 13)
   || (28 <=? c) && (c <=? 32)
   || (c =? 133) || (c =? 160) || (c =? 5760)
   || (8192 <=? c) && (c <=? 8202)
   || (c =? 8232) || (c =? 8233) || (c =? 8239) || (c =? 8287)
   || (c =? 12288))%N.

Fixpoint lstrip (s : str) : str :=
  match s with
  | [] => []
  | c :: s' => if isspace c then lstrip s' else s
  end.

Definition rstrip (s : str) : str := rev (lstrip (rev s)).

(** [s.strip()] *)
Definition strip (s : str) : str := rstrip (lstrip s).

(** The exceptions a run of a notebook can end with. *)
Inductive exn : Type :=
| RequestException      (* requests.get: transport failure *)
| AttributeError        (* a method looked up on None *)
| IndexError            (* list index out of range *)
| OSError               (* open: the file cannot be opened for writing *)
| UnicodeEncodeError    (* a character the file's encoding lacks *)
| UnicodeDecodeError    (* bytes that are no text in the file's encoding *)
| csv_Error.            (* csv.reader: malformed input *)

(** How a statement ends: it raises, or it yields a value. *)
Inductive result (A : Type) : Type :=
| Raise (e : exn)
| Return (a : A).
Arguments Raise {A} e.
Arguments Return {A} a.

(** [l[i]] *)
Definition getitem {A} (l : list A) (i : nat) : result A :=
  match nth_error l i with
  | Some a => Return a
  | None => Raise IndexError
  end.

(** [l[1:]] *)
Definition slice_from_1 {A} (l : list A) : list A := skipn 1 l.

End Py.

(** Literals of the notebooks are written [py "..."]. *)
Definition py (s : string) : Py.str := Py.of_string s.
Arguments py s%_string.

(** ** The parsed document (bs4) *)

Module bs4.

(** The subclasses of NavigableString a parsed string can have, CData
    apart: markup that is no text, and the strings of the elements the
    tree builder keeps apart (script, style, template, rt, rp). *)
Inductive special_class : Type :=
| Comment
| Declaration
| Doctype
| ProcessingInstruction
| Script
| Stylesheet
| TemplateString
| RubyTextString
| RubyParenthesisString.

Definition class_eqb (a b : special_class) : bool :=
  match a, b with
  | Comment, Comment
  | Declaration, Declaration
  | Doctype, Doctype
  | ProcessingInstruction, ProcessingInstruction
  | Script, Script
  | Stylesheet, Stylesheet
  | TemplateString, TemplateString
  | RubyTextString, RubyTextString
  | RubyParenthesisString, RubyParenthesisString => true
  | _, _ => false
  end.

(** A node of the tree [bs4.BeautifulSoup] builds.  [NavigableString] is
    a string of the class NavigableString or CData, [Special] a string of
    one of the other classes. *)
Inductive node : Type :=
| Tag (name : Py.str) (attrs : list (Py.str * Py.str)) (contents : list node)
| NavigableString (s : Py.str)
| Special (k : special_class) (s : Py.str).

(** [tag.descendants]: every node below [n], in document order. *)
Fixpoint descendants (n : node) : list node :=
  match n with
  | Tag _ _ cs =>
      (fix below (l : list node) : list node :=
         match l with
         | [] => []
         | c :: l' => c :: descendants c ++ below l'
         end) cs
  | _ => []
  end.

Definition str_eqb (a b : Py.str) : bool := bool_decide (a = b).

Definition is_tag (name : Py.str) (n : node) : bool :=
  match n with
  | Tag nm _ _ => str_eqb nm name
  | _ => false
  end.

(** [tag.find_all(name)] *)
Definition find_all (name : Py.str) (n : node) : list node :=
  List.filter (is_tag name) (descendants n).

(** [tag.find(name)]: the first match, or None. *)
Definition find (name : Py.str) (n : node) : option node :=
  head (find_all name n).

(** [builder.string_containers] of the HTML tree builders: the elements
    whose strings get a class of their own. *)
Definition string_containers (name : Py.str) : option special_class :=
  if str_eqb name (py "rt") then Some RubyTextString
  else if str_eqb name (py "rp") then Some RubyParenthesisString
  else if str_eqb name (py "style") then Some Stylesheet
  else if str_eqb name (py "script") then Some Script
  else if str_eqb name (py "template") then Some TemplateString
  else None.

(** What the node [n] gives to the text of an element named [name] above
    it ([Tag._all_strings] with the element's [interesting_string_types]):
    an element other than a string container takes the strings of class
    NavigableString or CData, a string container those of its own class. *)
Definition interesting (name : Py.str) (n : node) : Py.str :=
  match n, string_containers name with
  | NavigableString s, None => s
  | Special k s, Some k' => if class_eqb k k' then s else []
  | _, _ => []
  end.

(** [element.text]: on a tag the interesting strings below it, joined;
    on a string the string itself when its class is NavigableString or
    CData, and the empty string otherwise. *)
Definition text (n : node) : Py.str :=
  match n with
  | Tag name _ _ => concat (map (interesting name) (descendants n))
  | NavigableString s => s
  | Special _ _ => []
  end.

End bs4.

(** ** Text encodings *)

Module codecs.

(** The encodings a file of the notebooks is written in: the one the second
    notebook names, and the usual one of the locale of a Windows machine. *)
Inductive Encoding : Type := utf_8 | cp1252.

Definition byte_of (n : N) : byte :=
  match Byte.of_N n with Some b => b | None => "000"%byte end.

Definition utf_8_encode_char (c : N) : option (list byte) :=
  (if c <? 128 then Some [byte_of c]
   else if c <? 2048 then
     Some [byte_of (192 + c / 64); byte_of (128 + c mod 64)]
   else if c <? 65536 then
     if (55296 <=? c) && (c <=? 57343) then None   (* a lone surrogate *)
     else Some [byte_of (224 + c / 4096); byte_of (128 + (c / 64) mod 64);
                byte_of (128 + c mod 64)]
   else if c <? 1114112 then
     Some [byte_of (240 + c / 262144); byte_of (128 + (c / 4096) mod 64);
           byte_of (128 + (c / 64) mod 64); byte_of (128 + c mod 64)]
   else None)%N.

(** Bytes 0x80..0x9F of code page 1252 and the code points they stand for;
    five of them stand for nothing. *)
Definition cp1252_high : list (N * N) :=
  [(128, 8364); (130, 8218); (131, 402); (132, 8222); (133, 8230);
   (134, 8224); (135, 8225); (136, 710); (137, 8240); (138, 352);
   (139, 8249); (140, 338); (142, 381); (145, 8216); (146, 8217);
   (147, 8220); (148, 8221); (149, 8226); (150, 8211); (151, 8212);
   (152, 732); (153, 8482); (154, 353); (155, 8250); (156, 339);
   (158, 382); (159, 376)]%N.

Fixpoint cp1252_byte_for (c : N) (t : list (N * N)) : option N :=
  match t with
  | [] => None
  | (b, c') :: t' => if (c' =? c)%N then Some b else cp1252_byte_for c t'
  end.

Definition cp1252_encode_char (c : N) : option (list byte) :=
  if ((c <? 128) || (160 <=? c) && (c <=? 255))%N then Some [byte_of c]
  else match cp1252_byte_for c cp1252_high with
       | Some b => Some [byte_of b]
       | None => None
       end.

Definition encode_char (e : Encoding) : N -> option (list byte) :=
  match e with
  | utf_8 => utf_8_encode_char
  | cp1252 => cp1252_encode_char
  end.

(** [s.encode(e)], errors='strict': None stands for UnicodeEncodeError. *)
Fixpoint encode (e : Encoding) (s : Py.str) : option (list byte) :=
  match s with
  | [] => Some []
  | c :: s' =>
      match encode_char e c, encode e s' with
      | Some bs, Some rest => Some (bs ++ rest)
      | _, _ => None
      end
  end.

(** The six low bits of a continuation byte 10xxxxxx. *)
Definition continuation (b : byte) : option N :=
  let n := Byte.to_N b in
  if ((128 <=? n) && (n <? 192))%N then Some (n - 128)%N else None.

(** [bs.decode('utf-8')], errors='strict': None stands for
    UnicodeDecodeError (a truncated or overlong sequence, a surrogate, a
    value past U+10FFFF, a stray byte). *)
Fixpoint utf_8_decode (bs : list byte) : option Py.str :=
  match bs with
  | [] => Some []
  | b0 :: bs1 =>
      let n0 := Byte.to_N b0 in
      if (n0 <? 128)%N then option_map (cons n0) (utf_8_decode bs1)
      else if (n0 <? 192)%N then None
      else if (n0 <? 224)%N then
        match bs1 with
        | b1 :: bs2 =>
            match continuation b1 with
            | Some x1 =>
                let c := ((n0 - 192) * 64 + x1)%N in
                if (128 <=? c)%N then option_map (cons c) (utf_8_decode bs2) else None
            | None => None
            end
        | [] => None
        end
      else if (n0 <? 240)%N then
        match bs1 with
        | b1 :: b2 :: bs3 =>
            match continuation b1, continuation b2 with
            | Some x1, Some x2 =>
                let c := ((n0 - 224) * 4096 + x1 * 64 + x2)%N in
                if ((2048 <=? c) && negb ((55296 <=? c) && (c <=? 57343)))%N
                then option_map (cons c) (utf_8_decode bs3) else None
            | _, _ => None
            end
        | _ => None
        end
      else if (n0 <? 248)%N then
        match bs1 with
        | b1 :: b2 :: b3 :: bs4 =>
            match continuation b1, continuation b2, continuation b3 with
            | Some x1, Some x2, Some x3 =>
                let c := ((n0 - 240) * 262144 + x1 * 4096 + x2 * 64 + x3)%N in
                if ((65536 <=? c) && (c <? 1114112))%N
                then option_map (cons c) (utf_8_decode bs4) else None
            | _, _, _ => None
            end
        | _ => None
        end
      else None
  end.

Fixpoint cp1252_char_for (b : N) (t : list (N * N)) : option N :=
  match t with
  | [] => None
  | (b', c) :: t' => if (b' =? b)%N then Some c else cp1252_char_for b t'
  end.

Definition cp1252_decode_byte (b : byte) : option N :=
  let n := Byte.to_N b in
  if ((n <? 128) || (160 <=? n))%N then Some n
  else cp1252_char_for n cp1252_high.

Fixpoint cp1252_decode (bs : list byte) : option Py.str :=
  match bs with
  | [] => Some []
  | b :: bs' =>
      match cp1252_decode_byte b, cp1252_decode bs' with
      | Some c, Some s => Some (c :: s)
      | _, _ => None
      end
  end.

(** [bs.decode(e)] *)
Definition decode (e : Encoding) : list byte -> option Py.str :=
  match e with
  | utf_8 => utf_8_decode
  | cp1252 => cp1252_decode
  end.

End codecs.

(** ** The machine a notebook runs on *)

(** What [requests.get] hands back; only [.text] is read by the pipelines
    ([.status_code] is shown in a cell of its own and never tested). *)
Record Response : Type := { status_code : N; text : Py.str }.

(** Everything outside the notebook: the network, the HTML parser, the
    locale, the line separator of the operating system, and which paths can
    be opened for writing. *)
Record World : Type := {
  requests_get : Py.str -> Py.result Response;
  BeautifulSoup : Py.str -> bs4.node;   (* bs4.BeautifulSoup(_, 'html.parser') *)
  getencoding : codecs.Encoding;        (* locale.getencoding() *)
  linesep : Py.str;                     (* os.linesep *)
  writable : string -> bool
}.

(** The file system: the bytes of each file. *)
Abbreviation FS := (gmap string (list byte)).

(** A cell of a notebook acts on the file system and raises or returns. *)
Definition M (A : Type) : Type := FS -> Py.result A * FS.

Definition ret {A} (a : A) : M A := fun fs => (Py.Return a, fs).

Definition raise {A} (e : Py.exn) : M A := fun fs => (Py.Raise e, fs).

Definition bind {A B} (m : M A) (k : A -> M B) : M B :=
  fun fs =>
    match m fs with
    | (Py.Return a, fs') => k a fs'
    | (Py.Raise e, fs') => (Py.Raise e, fs')
    end.

Definition lift {A} (r : Py.result A) : M A := fun fs => (r, fs).

Notation "x <- m ;; k" := (bind m (fun x => k))
  (at level 100, m at next level, right associativity).
Notation "m ;;; k" := (bind m (fun _ => k))
  (at level 100, right associativity).

(** [for x in l: body x] *)
Fixpoint for_each {A} (l : list A) (body : A -> M unit) : M unit :=
  match l with
  | [] => ret tt
  | x :: l' => body x ;;; for_each l' body
  end.

(** The same machine with another line separator. *)
Definition with_linesep (w : World) (l : Py.str) : World :=
  {| requests_get := requests_get w; BeautifulSoup := BeautifulSoup w;
     getencoding := getencoding w; linesep := l; writable := writable w |}.

(** ** Text files (io) *)

Module io.

(** The object [open(name, 'w', newline=.., encoding=..)] returns. *)
Record TextIOWrapper : Type := {
  name : string;
  encoding : codecs.Encoding;
  newline : option Py.str
}.

(** Line endings on output: with [newline=None] every '\n' becomes
    [os.linesep], with [newline=''] or ['\n'] nothing is translated, and
    any other value replaces '\n'. *)
Definition translate (w : World) (nl : option Py.str) (s : Py.str) : Py.str :=
  let writenl := match nl with
                 | None => linesep w
                 | Some [] => [10%N]
                 | Some l => l
                 end in
  flat_map (fun c => if (c =? 10)%N then writenl else [c]) s.

(** [open(name, 'w', newline=nl, encoding=enc)]: the file is created or
    truncated; without [encoding] the locale's encoding is taken. *)
Definition open_w (w : World) (nm : string) (nl : option Py.str)
    (enc : option codecs.Encoding) : M TextIOWrapper :=
  fun fs =>
    if writable w nm then
      (Py.Return {| name := nm;
                    encoding := match enc with
                                | Some e => e
                                | None => getencoding w
                                end;
                    newline := nl |},
       <[nm := []]> fs)
    else (Py.Raise Py.OSError, fs).

(** [f.write(s)]: the whole of [s] is encoded, then appended. *)
Definition write (w : World) (f : TextIOWrapper) (s : Py.str) : M unit :=
  fun fs =>
    match codecs.encode (encoding f) (translate w (newline f) s) with
    | Some bs => (Py.Return tt, <[name f := default [] (fs !! name f) ++ bs]> fs)
    | None => (Py.Raise Py.UnicodeEncodeError, fs)
    end.

(** [with open(..) as f: body f].  Leaving the block, normally or by an
    exception, closes the file: what was written stays written. *)
Definition with_open (w : World) (nm : string) (nl : option Py.str)
    (enc : option codecs.Encoding) (body : TextIOWrapper -> M unit) : M unit :=
  f <- open_w w nm nl enc ;; body f.

(** [open(name, newline='', encoding=enc).read()]: the bytes of the file
    as text, no line ending translated. *)
Definition read (w : World) (nm : string) (enc : option codecs.Encoding) : M Py.str :=
  fun fs =>
    match fs !! nm with
    | None => (Py.Raise Py.OSError, fs)
    | Some bs =>
        match codecs.decode (match enc with Some e => e | None => getencoding w end) bs with
        | Some s => (Py.Return s, fs)
        | None => (Py.Raise Py.UnicodeDecodeError, fs)
        end
    end.

End io.

(** ** Writing CSV (csv.writer, default dialect) *)

Module csv.

Definition delimiter : N := 44.               (* ',' *)
Definition quotechar : N := 34.               (* the double quote *)
Definition lineterminator : Py.str := [13; 10]%N.   (* '\r\n' *)

(** The characters that force quotes around a field (QUOTE_MINIMAL). *)
Definition special (c : N) : bool :=
  ((c =? delimiter) || (c =? quotechar) || (c =? 10) || (c =? 13))%N.

(** The pass over the characters of one field: whether it has to be quoted,
    and its characters with every quote doubled. *)
Fixpoint join_append_data (field : Py.str) : bool * Py.str :=
  match field with
  | [] => (false, [])
  | c :: field' =>
      let '(quoted, out) := join_append_data field' in
      if special c
      then (true, (if (c =? quotechar)%N then [quotechar; c] else [c]) ++ out)
      else (quoted, c :: out)
  end.

Definition join_append (field : Py.str) : Py.str :=
  let '(quoted, out) := join_append_data field in
  if quoted then quotechar :: out ++ [quotechar] else out.

(** The fields of a row, a delimiter before each but the first. *)
Fixpoint join (row : list Py.str) : Py.str :=
  match row with
  | [] => []
  | [f] => join_append f
  | f :: row' => join_append f ++ delimiter :: join row'
  end.

(** The line [writerow] hands to the file: a row that is one empty field is
    written as a pair of quotes. *)
Definition record (row : list Py.str) : Py.str :=
  let rec := join row in
  (match row, rec with
   | _ :: _, [] => [quotechar; quotechar]
   | _, _ => rec
   end) ++ lineterminator.

(** [csv.writer(f).writerow(row)] *)
Definition writerow (w : World) (f : io.TextIOWrapper) (row : list Py.str) : M unit :=
  io.write w f (record row).

(** [csv.writer(f).writerows(rows)] *)
Definition writerows (w : World) (f : io.TextIOWrapper) (rows : list (list Py.str)) : M unit :=
  for_each rows (writerow w f).

End csv.

(** ** U.S. Senate Press Gallery - complete.ipynb *)

Module senate.

Definition headers : list Py.str := [py "first"; py "last"; py "affiliation"].

Definition url : Py.str :=
  py "https://www.dailypress.senate.gov/membership/membership-lists/".

Definition outfile_name : string := "us-senate-press-gallery.csv".

(** [rows = table.find_all('tr')[1:]] with [table = soup.find('table')]:
    on None the attribute lookup raises. *)
Definition rows_of (soup : bs4.node) : Py.result (list bs4.node) :=
  match bs4.find (py "table") soup with
  | None => Py.Raise Py.AttributeError
  | Some table => Py.Return (Py.slice_from_1 (bs4.find_all (py "tr") table))
  end.

(** [cells[i].text.strip()] *)
Definition cell (cells : list bs4.node) (i : nat) : Py.result Py.str :=
  match Py.getitem cells i with
  | Py.Raise e => Py.Raise e
  | Py.Return c => Py.Return (Py.strip (bs4.text c))
  end.

(** What the body of the loop computes from a row before it writes. *)
Definition extract (row : bs4.node) : Py.result (list Py.str) :=
  let cells := bs4.find_all (py "td") row in
  match cell cells 0 with
  | Py.Raise e => Py.Raise e
  | Py.Return first_name =>
      match cell cells 1 with
      | Py.Raise e => Py.Raise e
      | Py.Return last_name =>
          match cell cells 2 with
          | Py.Raise e => Py.Raise e
          | Py.Return affiliation => Py.Return [first_name; last_name; affiliation]
          end
      end
  end.

(** The body of [for row in rows]. *)
Definition body (w : World) (writer : io.TextIOWrapper) (row : bs4.node) : M unit :=
  let cells := bs4.find_all (py "td") row in
  first_name <- lift (cell cells 0) ;;
  last_name <- lift (cell cells 1) ;;
  affiliation <- lift (cell cells 2) ;;
  csv.writerow w writer [first_name; last_name; affiliation].

(** The cell that writes the file. *)
Definition write_cell (w : World) (rows : list bs4.node) : M unit :=
  io.with_open w outfile_name (Some []) None (fun outfile =>
    let writer := outfile in
    csv.writerow w writer headers ;;;
    for_each rows (body w writer)).

(** The code cells, top to bottom. *)
Definition run (w : World) : M unit :=
  req <- lift (requests_get w url) ;;
  let soup := BeautifulSoup w (text req) in
  rows <- lift (rows_of soup) ;;
  write_cell w rows.

End senate.

(** ** South Dakota WARN notices.ipynb *)

Module sd_warn.

Definition url : Py.str :=
  py "https://dlr.sd.gov/workforce_services/businesses/warn_notices.aspx".

Definition outfile_name : string := "sd-warn-notices.csv".

Definition csv_headers : list Py.str :=
  [py "company"; py "location"; py "date"; py "employees_laid_off"; py "url"].

(** [rows = table.find_all('tr')] with [table = soup.find('table')]. *)
Definition rows_of (soup : bs4.node) : Py.result (list bs4.node) :=
  match bs4.find (py "table") soup with
  | None => Py.Raise Py.AttributeError
  | Some table => Py.Return (bs4.find_all (py "tr") table)
  end.

(** [data_to_write = []] and the loop over [rows], whose body is
    [print(row)] followed by comments: the list is handed on as it is. *)
Definition data_to_write (rows : list bs4.node) : list (list Py.str) :=
  fold_left (fun data_to_write row => data_to_write) rows [].

(** The cell that writes the file. *)
Definition write_cell (w : World) (data : list (list Py.str)) : M unit :=
  io.with_open w outfile_name (Some []) (Some codecs.utf_8) (fun outfile =>
    let writer := outfile in
    csv.writerow w writer csv_headers ;;;
    csv.writerows w writer data).

(** The code cells, top to bottom. *)
Definition run (w : World) : M unit :=
  req <- lift (requests_get w url) ;;
  let soup := BeautifulSoup w (text req) in
  rows <- lift (rows_of soup) ;;
  write_cell w (data_to_write rows).

End sd_warn.

(** ** Fixtures *)

Module fixtures.

Import codecs.

Definition td (s : Py.str) : bs4.node :=
  bs4.Tag (py "td") [] [bs4.NavigableString s].

Definition tr (cells : list bs4.node) : bs4.node := bs4.Tag (py "tr") [] cells.

Definition page (rows : list bs4.node) : bs4.node :=
  bs4.Tag (py "[document]") []
    [bs4.Tag (py "html") [] [bs4.Tag (py "body") []
       [bs4.Tag (py "h1") [] [bs4.NavigableString (py "Members")];
        bs4.Tag (py "table") [] rows]]].

(** A machine that serves one parsed page. *)
Definition serving (soup : bs4.node) (enc : Encoding) : World :=
  {| requests_get := fun _ => Py.Return {| status_code := 200; text := [] |};
     BeautifulSoup := fun _ => soup;
     getencoding := enc;
     linesep := [10%N];
     writable := fun _ => true |}.

Definition ok : Response := {| status_code := 200; text := [] |}.

(** A table that has its header row only. *)
Definition bare_table : bs4.node :=
  bs4.Tag (py "table") [] [tr [td (py "Name")]].

Definition bare_world : World :=
  serving (bs4.Tag (py "[document]") [] [bare_table]) codecs.cp1252.

(** Two rows of the WARN table. *)
Definition warn_rows : list bs4.node :=
  [tr [td (py "Company")]; tr [td (py "Acme Corp")]].

(** The cell of the example: two spaces, the name, a space and a line feed. *)
Definition acme_cell : bs4.node :=
  td ([32; 32]%N ++ py "Acme Corp" ++ [32; 10]%N).

(** A row of the press gallery, with white space around its texts. *)
Definition member_row : bs4.node :=
  tr [td (py " Ada "); td (py "Lovelace"); td (py "The Analytical Engine, Ltd.  ")].

(** A page without a table. *)
Definition plain_page : bs4.node :=
  bs4.Tag (py "[document]") []
    [bs4.Tag (py "html") [] [bs4.Tag (py "body") []
       [bs4.Tag (py "h1") [] [bs4.NavigableString (py "Members")];
        bs4.Tag (py "p") [] [bs4.NavigableString (py "The list has moved.")]]]].

Definition plain_world : World := serving plain_page codecs.utf_8.

(** A table whose third row lacks a cell. *)
Definition ragged_rows : list bs4.node :=
  [tr [bs4.Tag (py "th") [] [bs4.NavigableString (py "Name")]];
   member_row;
   tr [td (py "Grace"); td (py "Hopper")];
   tr [td (py "Alan"); td (py "Turing"); td (py "Mind")]].

Definition ragged_world : World := serving (page ragged_rows) codecs.utf_8.

Definition member_line : list byte :=
  list_byte_of_string "Ada,Lovelace," ++ [x22]
  ++ list_byte_of_string "The Analytical Engine, Ltd." ++ [x22; x0d; x0a].

(** A member whose name and paper need letters outside ASCII, on a machine
    whose locale is code page 1252. *)
Definition accented_row : bs4.node :=
  tr [td (py "Jos" ++ [233%N]); td (py "Mart" ++ [237%N]);
      td (py "El Pa" ++ [237%N] ++ py "s")].

Definition windows_world : World :=
  serving (page [tr [bs4.Tag (py "th") [] [bs4.NavigableString (py "Name")]];
                 accented_row]) cp1252.

Definition accented_line_cp1252 : list byte :=
  list_byte_of_string "Jos" ++ [xe9] ++ list_byte_of_string ",Mart" ++ [xed]
  ++ list_byte_of_string ",El Pa" ++ [xed] ++ list_byte_of_string "s" ++ [x0d; x0a].

Definition accented_line_utf_8 : list byte :=
  list_byte_of_string "Jos" ++ [xc3; xa9] ++ list_byte_of_string ",Mart" ++ [xc3; xad]
  ++ list_byte_of_string ",El Pa" ++ [xc3; xad] ++ list_byte_of_string "s" ++ [x0d; x0a].

(** Rows that need every kind of quoting: a delimiter, a quote, line
    breaks, an empty field alone, no field at all. *)
Definition awkward_rows : list (list Py.str) :=
  [[py "Acme, Inc."; py "say " ++ [34%N] ++ py "hi" ++ [34%N]; []];
   [py "two" ++ [13; 10]%N ++ py "lines"; [13%N]; [10%N] ++ py "x"];
   [[]];
   [];
   [py "Jos" ++ [233%N]; py " padded "]].

(** A WARN notice with a link to its report. *)
Definition report_link : bs4.node :=
  bs4.Tag (py "a") [(py "href", py "/docs/report.pdf")]
    [bs4.NavigableString (py "Acme Corp")].

Definition notice_row : bs4.node :=
  tr [bs4.Tag (py "td") [] [report_link]; td (py "Pierre"); td (py "3/1/2025");
      td (py "120")].

Definition notices_world : World :=
  serving (page [tr [td (py "Company"); td (py "Location"); td (py "Date");
                     td (py "Employees")];
                 notice_row]) utf_8.

End fixtures.


(** ** Reading CSV back (a file opened with newline='', csv.reader) *)

Module csv_reader.

(** Iterating over a text file opened with [newline='']: lines end at
    '\n', '\r' or '\r\n', and keep their ending.  [cur] is the part of the
    current line already seen. *)
Fixpoint readlines_from (cur s : Py.str) : list Py.str :=
  match s with
  | [] => match cur with [] => [] | _ => [cur] end
  | c :: s' =>
      if (c =? 10)%N then (cur ++ [c]) :: readlines_from [] s'
      else if (c =? 13)%N then
        match s' with
        | c2 :: s'' =>
            if (c2 =? 10)%N then (cur ++ [c; c2]) :: readlines_from [] s''
            else (cur ++ [c]) :: readlines_from [] s'
        | [] => [cur ++ [c]]
        end
      else readlines_from (cur ++ [c]) s'
  end.

Definition readlines (s : Py.str) : list Py.str := readlines_from [] s.

(** The states of the parser the default dialect can reach (the three
    states of escaped characters need an escapechar, and it has none). *)
Inductive ParserState : Type :=
| START_RECORD | START_FIELD | IN_FIELD | IN_QUOTED_FIELD
| QUOTE_IN_QUOTED_FIELD | EAT_CRNL.

Record Reader : Type := {
  state : ParserState;
  field : Py.str;            (* the characters of the field being read *)
  fields : list Py.str       (* the fields of the record read so far *)
}.

Definition parse_reset : Reader :=
  {| state := START_RECORD; field := []; fields := [] |}.

Definition set_state (s : ParserState) (r : Reader) : Reader :=
  {| state := s; field := field r; fields := fields r |}.

Definition parse_save_field (r : Reader) : Reader :=
  {| state := state r; field := []; fields := fields r ++ [field r] |}.

Section Limit.

(** [csv.field_size_limit()], 131072 unless it is set. *)
Variable field_limit : N.

Definition parse_add_char (r : Reader) (c : N) : Py.result Reader :=
  if (field_limit <=? N.of_nat (length (field r)))%N then Py.Raise Py.csv_Error
  else Py.Return {| state := state r; field := field r ++ [c]; fields := fields r |}.

Definition is_nl (c : N) : bool := ((c =? 10) || (c =? 13))%N.

Definition map_result {A B} (f : A -> B) (r : Py.result A) : Py.result B :=
  match r with
  | Py.Raise e => Py.Raise e
  | Py.Return a => Py.Return (f a)
  end.

(** The case START_FIELD, which START_RECORD falls through to. *)
Definition start_field (r : Reader) (c : option N) : Py.result Reader :=
  match c with
  | None => Py.Return (set_state START_RECORD (parse_save_field r))
  | Some ch =>
      if is_nl ch then Py.Return (set_state EAT_CRNL (parse_save_field r))
      else if (ch =? csv.quotechar)%N then Py.Return (set_state IN_QUOTED_FIELD r)
      else if (ch =? csv.delimiter)%N then Py.Return (set_state START_FIELD (parse_save_field r))
      else map_result (set_state IN_FIELD) (parse_add_char r ch)
  end.

(** One step of the parser; [None] is the end of a line. *)
Definition parse_process_char (r : Reader) (c : option N) : Py.result Reader :=
  match state r with
  | START_RECORD =>
      match c with
      | None => Py.Return r
      | Some ch =>
          if is_nl ch then Py.Return (set_state EAT_CRNL r)
          else start_field r c
      end
  | START_FIELD => start_field r c
  | IN_FIELD =>
      match c with
      | None => Py.Return (set_state START_RECORD (parse_save_field r))
      | Some ch =>
          if is_nl ch then Py.Return (set_state EAT_CRNL (parse_save_field r))
          else if (ch =? csv.delimiter)%N then Py.Return (set_state START_FIELD (parse_save_field r))
          else parse_add_char r ch
      end
  | IN_QUOTED_FIELD =>
      match c with
      | None => Py.Return r
      | Some ch =>
          if (ch =? csv.quotechar)%N then Py.Return (set_state QUOTE_IN_QUOTED_FIELD r)
          else parse_add_char r ch
      end
  | QUOTE_IN_QUOTED_FIELD =>
      match c with
      | None => Py.Return (set_state START_RECORD (parse_save_field r))
      | Some ch =>
          if (ch =? csv.quotechar)%N then map_result (set_state IN_QUOTED_FIELD) (parse_add_char r ch)
          else if (ch =? csv.delimiter)%N then Py.Return (set_state START_FIELD (parse_save_field r))
          else if is_nl ch then Py.Return (set_state EAT_CRNL (parse_save_field r))
          else map_result (set_state IN_FIELD) (parse_add_char r ch)
      end
  | EAT_CRNL =>
      match c with
      | None => Py.Return (set_state START_RECORD r)
      | Some ch => if is_nl ch then Py.Return r else Py.Raise Py.csv_Error
      end
  end.

(** The characters of a line, one after the other. *)
Fixpoint feed (r : Reader) (line : Py.str) : Py.result Reader :=
  match line with
  | [] => Py.Return r
  | c :: line' =>
      match parse_process_char r (Some c) with
      | Py.Raise e => Py.Raise e
      | Py.Return r' => feed r' line'
      end
  end.

(** A line, then its end. *)
Definition process_line (r : Reader) (line : Py.str) : Py.result Reader :=
  match feed r line with
  | Py.Raise e => Py.Raise e
  | Py.Return r' => parse_process_char r' None
  end.

Definition is_START_RECORD (s : ParserState) : bool :=
  match s with START_RECORD => true | _ => false end.

Definition is_IN_QUOTED_FIELD (s : ParserState) : bool :=
  match s with IN_QUOTED_FIELD => true | _ => false end.

(** [list(csv.reader(f))]: each call of the iterator takes lines until the
    parser is back at the start of a record, and yields the fields read;
    when the lines run out inside a record, what was read is yielded. *)
Fixpoint records (r : Reader) (lines : list Py.str) (acc : list (list Py.str))
    : Py.result (list (list Py.str)) :=
  match lines with
  | [] =>
      if negb (Nat.eqb (length (field r)) 0) || is_IN_QUOTED_FIELD (state r)
      then Py.Return (acc ++ [fields (parse_save_field r)])
      else Py.Return acc
  | line :: lines' =>
      match process_line r line with
      | Py.Raise e => Py.Raise e
      | Py.Return r' =>
          if is_START_RECORD (state r')
          then records parse_reset lines' (acc ++ [fields r'])
          else records r' lines' acc
      end
  end.

(** [list(csv.reader(f))] for a file holding the text [s]. *)
Definition reader (s : Py.str) : Py.result (list (list Py.str)) :=
  records parse_reset (readlines s) [].

End Limit.

(** [with open(name, newline='', encoding=enc) as f: list(csv.reader(f))] *)
Definition read_csv (field_limit : N) (w : World) (nm : string)
    (enc : option codecs.Encoding) : M (list (list Py.str)) :=
  s <- io.read w nm enc ;; lift (reader field_limit s).

End csv_reader.

(** ** What the files are compared with *)

(** The text of a CSV file: the lines of its rows, one after the other. *)
Definition csv_text (rows : list (list Py.str)) : Py.str :=
  concat (map csv.record rows).

(** The bytes of the two header lines. *)
Definition senate_header_bytes : list byte :=
  list_byte_of_string "first,last,affiliation" ++ [x0d; x0a].

Definition sd_header_bytes : list byte :=
  list_byte_of_string "company,location,date,employees_laid_off,url" ++ [x0d; x0a].

(** What [strip] returns: the text without the white space before and
    after it. *)
Definition trimmed_of (s field : Py.str) : Prop :=
  (exists pre suf,
     s = pre ++ field ++ suf /\
     Forall (fun c => Py.isspace c = true) pre /\
     Forall (fun c => Py.isspace c = true) suf) /\
  (forall c t, field = c :: t -> Py.isspace c = false) /\
  (forall c t, field = t ++ [c] -> Py.isspace c = false).

(** The characters of a field with every quote doubled. *)
Definition escape (f : Py.str) : Py.str :=
  flat_map (fun c => if (c =? csv.quotechar)%N then [csv.quotechar; c] else [c]) f.

(** The fields after the first, a delimiter before each. *)
Definition tail_text (row : list Py.str) : Py.str :=
  flat_map (fun f => csv.delimiter :: csv.join_append f) row.

(** The reader on the lines of [s], [cur] being the part of the current
    line already seen and [r0] the parser at the start of that line. *)
Definition reader_from (limit : N) (r0 : csv_reader.Reader) (cur s : Py.str)
    (acc : list (list Py.str)) : Py.result (list (list Py.str)) :=
  csv_reader.records limit r0 (csv_reader.readlines_from cur s) acc.

(** [takes limit r s r']: wherever the parser stands at [r] inside a line,
    the characters [s] take it to [r'], whatever follows them and however
    the lines break. *)
Definition takes (limit : N) (r : csv_reader.Reader) (s : Py.str)
    (r' : csv_reader.Reader) : Prop :=
  forall r0 cur rest acc,
    csv_reader.feed limit r0 cur = Py.Return r ->
    exists r0' cur',
      csv_reader.feed limit r0' cur' = Py.Return r' /\
      reader_from limit r0 cur (s ++ rest) acc = reader_from limit r0' cur' rest acc.

(*PROPS*)

(** A field within the limit of the reader. *)
Definition fits (limit : N) (f : Py.str) : Prop := (N.of_nat (length f) <= limit)%N.

(** The states a written field leaves the parser in. *)
Definition after_field (r : csv_reader.Reader) : Prop :=
  csv_reader.state r = csv_reader.START_FIELD \/
  csv_reader.state r = csv_reader.IN_FIELD \/
  csv_reader.state r = csv_reader.QUOTE_IN_QUOTED_FIELD.

(** The record of a row of three cells or more: the trimmed texts of the
    first three. *)
Definition trimmed_cells (row : bs4.node) : list Py.str :=
  map (fun c => Py.strip (bs4.text c)) (firstn 3 (bs4.find_all (py "td") row)).

(** The same machine, every response carrying the status [code]. *)
Definition with_status (w : World) (code : N) : World :=
  {| requests_get := fun u =>
       match requests_get w u with
       | Py.Raise e => Py.Raise e
       | Py.Return req => Py.Return {| status_code := code; text := text req |}
       end;
     BeautifulSoup := BeautifulSoup w;
     getencoding := getencoding w; linesep := linesep w;
     writable := writable w |}.

(** A code point UTF-8 can encode: any but the surrogates, up to U+10FFFF. *)
Definition scalar_value (c : N) : Prop :=
  (c < 55296 \/ 57343 < c < 1114112)%N.

(** A character that ends no line. *)
Definition no_line_break (c : N) : Prop := c <> 10%N /\ c <> 13%N.

(** ** More pages and rows *)

Module more_fixtures.

(** A page with two tables; the second is the larger one. *)
Definition first_table : bs4.node :=
  bs4.Tag (py "table") [] [fixtures.tr [fixtures.td (py "Menu")]].

Definition second_table : bs4.node :=
  bs4.Tag (py "table") [] fixtures.ragged_rows.

Definition two_tables : bs4.node :=
  bs4.Tag (py "[document]") []
    [bs4.Tag (py "div") [] [bs4.NavigableString (py "Press gallery")];
     first_table; second_table].

(** A row one of whose cells holds a table of its own. *)
Definition inner_row : bs4.node :=
  fixtures.tr [fixtures.td (py "inner")].

Definition outer_row : bs4.node :=
  fixtures.tr [bs4.Tag (py "td") [] [bs4.Tag (py "table") [] [inner_row]];
               fixtures.td (py "outer")].

Definition nesting_table : bs4.node := bs4.Tag (py "table") [] [outer_row].

(** A cell with markup, a comment and a line break inside. *)
Definition marked_up_cell : bs4.node :=
  bs4.Tag (py "td") []
    [bs4.NavigableString (py " ");
     bs4.Tag (py "a") [(py "href", py "/acme")]
       [bs4.Tag (py "b") [] [bs4.NavigableString (py "Acme")]];
     bs4.Special bs4.Comment (py " was: Apex ");
     bs4.Tag (py "br") [] [];
     bs4.NavigableString (py " Corp ")].

(** A script element as the parser leaves it, and a cell that holds it. *)
Definition script : bs4.node :=
  bs4.Tag (py "script") [] [bs4.Special bs4.Script (py "track(1);")].

Definition scripted_cell : bs4.node :=
  bs4.Tag (py "td") []
    [bs4.NavigableString (py " Acme"); script;
     bs4.Tag (py "span") [] [bs4.NavigableString (py " Corp "); script]].

(** A table of three members, not in alphabetical order, on a machine
    whose locale is code page 1252. *)
Definition third_row : bs4.node :=
  fixtures.tr [fixtures.td (py "Alan"); fixtures.td (py "Turing");
               fixtures.td (py "Mind")].

Definition third_line : list byte :=
  list_byte_of_string "Alan,Turing,Mind" ++ [x0d; x0a].

Definition three_members : list bs4.node :=
  [fixtures.accented_row; fixtures.member_row; third_row].

Definition members_header : bs4.node :=
  fixtures.tr [bs4.Tag (py "th") [] [bs4.NavigableString (py "Name")]].

Definition members_table : bs4.node :=
  bs4.Tag (py "table") [] (members_header :: three_members).

Definition members_world : World :=
  fixtures.serving (fixtures.page (members_header :: three_members))
    codecs.cp1252.

(** A row of the press gallery with a fourth and a fifth cell. *)
Definition wide_row : bs4.node :=
  fixtures.tr [fixtures.td (py " Ada "); fixtures.td (py "Lovelace");
               fixtures.td (py "The Analytical Engine, Ltd.  ");
               fixtures.td (py "London"); fixtures.td (py "1843")].

(** A table whose second data row has a letter code page 1252 lacks
    (U+0142), on a machine whose locale is that code page. *)
Definition polish_row : bs4.node :=
  fixtures.tr [fixtures.td (py "Stanis" ++ [322%N] ++ py "aw");
               fixtures.td (py "Lem"); fixtures.td (py "Solaris")].

Definition header_row : bs4.node :=
  fixtures.tr [bs4.Tag (py "th") [] [bs4.NavigableString (py "Name")]].

Definition polish_rows : list bs4.node :=
  [header_row; fixtures.accented_row; polish_row; fixtures.member_row].

Definition polish_world : World :=
  fixtures.serving (fixtures.page polish_rows) codecs.cp1252.

(** A file system where the output files hold something already. *)
Definition used_fs : FS :=
  <[senate.outfile_name := list_byte_of_string "old,rows"]>
    (<[sd_warn.outfile_name := list_byte_of_string "old,rows"]>
       (<["notes.txt"%string := list_byte_of_string "keep"]> ∅)).

(** Rows as the loop of the second notebook is meant to collect them. *)
Definition notices : list (list Py.str) :=
  [[py "Acme, Inc."; py "Pierre"; py "3/1/2025"; py "120";
    py "https://example.gov/docs/report.pdf"];
   [py "Caf" ++ [233%N] ++ py " " ++ [8220%N] ++ py "Luna" ++ [8221%N];
    py "Sioux Falls"; py "4/2/2025"; py "15"; []]].

End more_fixtures.

(** ** Proof automation *)

(** Linear arithmetic with division and remainder by constants. *)
Ltac div_lia := zify; Z.to_euclidean_division_equations; lia.

(** Cases on every comparison of the goal. *)
Ltac split_tests :=
  repeat match goal with
         | |- context [(?a <? ?b)%N] => destruct (N.ltb_spec a b); try div_lia
         | |- context [(?a <=? ?b)%N] => destruct (N.leb_spec a b); try div_lia
         end.

(** * Properties *)

(** ** The text layer *)

Lemma encode_app (e : codecs.Encoding) (a b : Py.str) :
  codecs.encode e (a ++ b) =
  match codecs.encode e a, codecs.encode e b with
  | Some x, Some y => Some (x ++ y)
  | _, _ => None
  end.
Proof.
  induction a as [|c a IH]; simpl.
  - destruct (codecs.encode e b); reflexivity.
  - rewrite IH.
    destruct (codecs.encode_char e c), (codecs.encode e a), (codecs.encode e b);
      simpl; try reflexivity.
    now rewrite <- app_assoc.
Qed.

Lemma encode_app_Some (e : codecs.Encoding) (a b : Py.str) (bs : list byte) :
  codecs.encode e (a ++ b) = Some bs ->
  exists x y, codecs.encode e a = Some x /\ codecs.encode e b = Some y /\ bs = x ++ y.
Proof.
  rewrite encode_app.
  destruct (codecs.encode e a) as [x|], (codecs.encode e b) as [y|]; try discriminate.
  intros [= <-]. eauto.
Qed.

(** With [newline=''] nothing is translated, whatever the platform. *)
Lemma translate_empty_newline (w : World) (s : Py.str) :
  io.translate w (Some []) s = s.
Proof.
  unfold io.translate. induction s as [|c s IH]; simpl; [reflexivity|].
  rewrite IH. destruct (N.eqb_spec c 10) as [->|]; reflexivity.
Qed.

Lemma write_appends (w : World) (f : io.TextIOWrapper) (s : Py.str)
    (fs0 : FS) (cur bs : list byte) :
  io.newline f = Some [] ->
  codecs.encode (io.encoding f) s = Some bs ->
  io.write w f s (<[io.name f := cur]> fs0)
  = (Py.Return tt, <[io.name f := cur ++ bs]> fs0).
Proof.
  intros Hnl Henc. unfold io.write.
  rewrite Hnl, translate_empty_newline, Henc.
  rewrite lookup_insert_eq, insert_insert_eq. reflexivity.
Qed.

Lemma write_raises (w : World) (f : io.TextIOWrapper) (s : Py.str) (fs : FS) :
  io.newline f = Some [] ->
  codecs.encode (io.encoding f) s = None ->
  io.write w f s fs = (Py.Raise Py.UnicodeEncodeError, fs).
Proof.
  intros Hnl Henc. unfold io.write.
  now rewrite Hnl, translate_empty_newline, Henc.
Qed.

(** [writerows] of rows whose text the file's encoding has. *)
Lemma writerows_appends (w : World) (f : io.TextIOWrapper)
    (rows : list (list Py.str)) (fs0 : FS) (cur bs : list byte) :
  io.newline f = Some [] ->
  codecs.encode (io.encoding f) (csv_text rows) = Some bs ->
  csv.writerows w f rows (<[io.name f := cur]> fs0)
  = (Py.Return tt, <[io.name f := cur ++ bs]> fs0).
Proof.
  intros Hnl. unfold csv.writerows. revert cur bs.
  induction rows as [|row rows IH]; intros cur bs Henc.
  - injection Henc as <-. now rewrite app_nil_r.
  - unfold csv_text in Henc. simpl in Henc.
    apply encode_app_Some in Henc as (x & y & Hx & Hy & ->).
    simpl. unfold bind, csv.writerow at 1.
    rewrite (write_appends _ _ _ _ _ x Hnl Hx).
    rewrite (IH _ y Hy). now rewrite <- app_assoc.
Qed.

(** ** The loop of the Senate notebook *)

Lemma cell_Return (cells : list bs4.node) (i : nat) (c : bs4.node) :
  nth_error cells i = Some c ->
  senate.cell cells i = Py.Return (Py.strip (bs4.text c)).
Proof. intros H. unfold senate.cell, Py.getitem. now rewrite H. Qed.

Lemma cell_Raise (cells : list bs4.node) (i : nat) :
  nth_error cells i = None -> senate.cell cells i = Py.Raise Py.IndexError.
Proof. intros H. unfold senate.cell, Py.getitem. now rewrite H. Qed.

(** The body of the loop is the extraction followed by one [writerow]. *)
Lemma body_extract (w : World) (f : io.TextIOWrapper) (row : bs4.node) :
  senate.body w f row =
  match senate.extract row with
  | Py.Raise e => raise e
  | Py.Return rec => csv.writerow w f rec
  end.
Proof.
  unfold senate.body, senate.extract, bind, lift.
  destruct (senate.cell _ 0); [reflexivity|].
  destruct (senate.cell _ 1); [reflexivity|].
  destruct (senate.cell _ 2); reflexivity.
Qed.

(** A row with three cells or more is extracted; the first three count. *)
Lemma extract_three (row c0 c1 c2 : bs4.node) (more : list bs4.node) :
  bs4.find_all (py "td") row = c0 :: c1 :: c2 :: more ->
  senate.extract row =
  Py.Return [Py.strip (bs4.text c0); Py.strip (bs4.text c1); Py.strip (bs4.text c2)].
Proof. intros H. unfold senate.extract. now rewrite H. Qed.

(** A row with fewer than three cells raises IndexError. *)
Lemma extract_short (row : bs4.node) :
  (length (bs4.find_all (py "td") row) < 3)%nat ->
  senate.extract row = Py.Raise Py.IndexError.
Proof.
  intros H. unfold senate.extract.
  destruct (bs4.find_all (py "td") row) as [|c0 [|c1 [|c2 more]]];
    simpl in H; try reflexivity; lia.
Qed.

(** Whatever [extract] returns has three fields, each the trimmed text of
    the cell at its position. *)
Lemma extract_inv (row : bs4.node) (rec : list Py.str) :
  senate.extract row = Py.Return rec ->
  exists c0 c1 c2 more,
    bs4.find_all (py "td") row = c0 :: c1 :: c2 :: more /\
    rec = [Py.strip (bs4.text c0); Py.strip (bs4.text c1); Py.strip (bs4.text c2)].
Proof.
  intros H.
  destruct (bs4.find_all (py "td") row) as [|c0 [|c1 [|c2 more]]] eqn:E.
  1-3: rewrite extract_short in H; [discriminate | rewrite E; simpl; lia].
  rewrite (extract_three _ _ _ _ _ E) in H. injection H as <-. eauto 6.
Qed.

(** The rows of [good] are extracted and written in order. *)
Lemma senate_loop_app (w : World) (f : io.TextIOWrapper)
    (good rest : list bs4.node) (recs : list (list Py.str))
    (fs0 : FS) (cur bs : list byte) :
  io.newline f = Some [] ->
  Forall2 (fun row rec => senate.extract row = Py.Return rec) good recs ->
  codecs.encode (io.encoding f) (csv_text recs) = Some bs ->
  for_each (good ++ rest) (senate.body w f) (<[io.name f := cur]> fs0)
  = for_each rest (senate.body w f) (<[io.name f := cur ++ bs]> fs0).
Proof.
  intros Hnl Hex. revert cur bs.
  induction Hex as [|row rec good recs Hrow Hex IH]; intros cur bs Henc.
  - injection Henc as <-. now rewrite app_nil_r.
  - unfold csv_text in Henc. simpl in Henc.
    apply encode_app_Some in Henc as (x & y & Hx & Hy & ->).
    simpl. unfold bind at 1. rewrite body_extract, Hrow.
    unfold csv.writerow. rewrite (write_appends _ _ _ _ _ x Hnl Hx).
    rewrite (IH _ y Hy). now rewrite <- app_assoc.
Qed.

Lemma senate_header_encodes (e : codecs.Encoding) :
  codecs.encode e (csv.record senate.headers) = Some senate_header_bytes.
Proof. destruct e; vm_compute; reflexivity. Qed.

Lemma sd_header_encodes :
  codecs.encode codecs.utf_8 (csv.record sd_warn.csv_headers) = Some sd_header_bytes.
Proof. vm_compute; reflexivity. Qed.

Lemma senate_run_unfold (w : World) (fs : FS) :
  senate.run w fs =
  match requests_get w senate.url with
  | Py.Raise e => (Py.Raise e, fs)
  | Py.Return req =>
      match senate.rows_of (BeautifulSoup w (text req)) with
      | Py.Raise e => (Py.Raise e, fs)
      | Py.Return rows => senate.write_cell w rows fs
      end
  end.
Proof.
  unfold senate.run, bind, lift.
  destruct (requests_get w senate.url) as [e|req]; [reflexivity|].
  destruct (senate.rows_of _); reflexivity.
Qed.

(** Once the file is open the header is in it, and the loop starts. *)
Lemma senate_write_cell_unfold (w : World) (rows : list bs4.node) (fs : FS) :
  writable w senate.outfile_name = true ->
  senate.write_cell w rows fs =
  for_each rows
    (senate.body w {| io.name := senate.outfile_name;
                      io.encoding := getencoding w;
                      io.newline := Some [] |})
    (<[senate.outfile_name := senate_header_bytes]> fs).
Proof.
  intros Hw. unfold senate.write_cell, io.with_open, io.open_w, bind.
  rewrite Hw. unfold csv.writerow.
  set (f := {| io.name := _ |}).
  pose proof (write_appends w f _ fs [] senate_header_bytes eq_refl
                (senate_header_encodes _)) as H.
  simpl in H. rewrite H. reflexivity.
Qed.

Lemma sd_run_unfold (w : World) (fs : FS) :
  sd_warn.run w fs =
  match requests_get w sd_warn.url with
  | Py.Raise e => (Py.Raise e, fs)
  | Py.Return req =>
      match sd_warn.rows_of (BeautifulSoup w (text req)) with
      | Py.Raise e => (Py.Raise e, fs)
      | Py.Return rows => sd_warn.write_cell w (sd_warn.data_to_write rows) fs
      end
  end.
Proof.
  unfold sd_warn.run, bind, lift.
  destruct (requests_get w sd_warn.url) as [e|req]; [reflexivity|].
  destruct (sd_warn.rows_of _); reflexivity.
Qed.

(** The loop of the second notebook hands its empty list on. *)
Lemma data_to_write_nil (rows : list bs4.node) : sd_warn.data_to_write rows = [].
Proof. unfold sd_warn.data_to_write. induction rows; simpl; auto. Qed.

Lemma sd_write_cell_nil (w : World) (fs : FS) :
  writable w sd_warn.outfile_name = true ->
  sd_warn.write_cell w [] fs
  = (Py.Return tt, <[sd_warn.outfile_name := sd_header_bytes]> fs).
Proof.
  intros Hw. unfold sd_warn.write_cell, io.with_open, io.open_w, bind.
  rewrite Hw. unfold csv.writerow.
  set (f := {| io.name := _ |}).
  pose proof (write_appends w f _ fs [] sd_header_bytes eq_refl sd_header_encodes) as H.
  simpl in H. rewrite H. reflexivity.
Qed.

(** ** Tables without data rows (C10) *)

(** C10. When the table found on the page has no row, or one row only, the
    Senate notebook ends normally and its file holds the header line and
    nothing else: [[1:]] of a list of at most one row is empty, and the loop
    does not run. *)
Theorem senate_header_only (w : World) (fs : FS) (req : Response) (table : bs4.node) :
  requests_get w senate.url = Py.Return req ->
  bs4.find (py "table") (BeautifulSoup w (text req)) = Some table ->
  (length (bs4.find_all (py "tr") table) <= 1)%nat ->
  writable w senate.outfile_name = true ->
  senate.rows_of (BeautifulSoup w (text req)) = Py.Return [] /\
  senate.run w fs
  = (Py.Return tt, <[senate.outfile_name := senate_header_bytes]> fs) /\
  codecs.encode (getencoding w) (csv_text [senate.headers]) = Some senate_header_bytes.
Proof.
  intros Hget Htable Hlen Hw.
  assert (Hrows : senate.rows_of (BeautifulSoup w (text req)) = Py.Return []).
  { unfold senate.rows_of. rewrite Htable. f_equal.
    destruct (bs4.find_all (py "tr") table) as [|r [|r' l]]; simpl in *;
      try reflexivity; lia. }
  split; [exact Hrows|]. split.
  - rewrite senate_run_unfold, Hget, Hrows.
    now rewrite senate_write_cell_unfold.
  - destruct (getencoding w); vm_compute; reflexivity.
Qed.

Lemma senate_header_only_witness :
  senate.run fixtures.bare_world ∅
  = (Py.Return tt, <[senate.outfile_name := senate_header_bytes]> ∅).
Proof.
  refine (proj1 (proj2 (senate_header_only fixtures.bare_world ∅ fixtures.ok
                          fixtures.bare_table _ _ _ _))).
  - reflexivity.
  - vm_compute; reflexivity.
  - vm_compute; lia.
  - reflexivity.
Defined.

(** ** The second notebook as shipped (C9) *)

(** C9. The loop of the SD WARN notebook only prints each row: whatever the
    rows, [data_to_write] stays empty, and the cell that writes the file
    leaves in it the header line
    [company,location,date,employees_laid_off,url] and no data row; so does
    every run over a page with a table. *)
Theorem sd_warn_header_only (w : World) (fs : FS) (rows : list bs4.node) :
  writable w sd_warn.outfile_name = true ->
  sd_warn.data_to_write rows = [] /\
  sd_warn.write_cell w (sd_warn.data_to_write rows) fs
  = (Py.Return tt, <[sd_warn.outfile_name := sd_header_bytes]> fs) /\
  codecs.encode codecs.utf_8 (csv_text [sd_warn.csv_headers]) = Some sd_header_bytes /\
  (forall req table,
     requests_get w sd_warn.url = Py.Return req ->
     bs4.find (py "table") (BeautifulSoup w (text req)) = Some table ->
     sd_warn.run w fs
     = (Py.Return tt, <[sd_warn.outfile_name := sd_header_bytes]> fs)).
Proof.
  intros Hw. split; [apply data_to_write_nil|].
  split; [rewrite data_to_write_nil; now apply sd_write_cell_nil|].
  split; [vm_compute; reflexivity|].
  intros req table Hget Htable.
  rewrite sd_run_unfold, Hget. unfold sd_warn.rows_of. rewrite Htable.
  rewrite data_to_write_nil. now apply sd_write_cell_nil.
Qed.

Lemma sd_warn_header_only_witness :
  sd_warn.write_cell fixtures.bare_world (sd_warn.data_to_write fixtures.warn_rows) ∅
  = (Py.Return tt, <[sd_warn.outfile_name := sd_header_bytes]> ∅).
Proof.
  refine (proj1 (proj2 (sd_warn_header_only fixtures.bare_world ∅ fixtures.warn_rows _))).
  reflexivity.
Defined.

(** ** Trimming (C6) *)

Lemma lstrip_split (s : Py.str) :
  exists pre, s = pre ++ Py.lstrip s /\ Forall (fun c => Py.isspace c = true) pre.
Proof.
  induction s as [|c s (pre & Hs & Hpre)]; simpl.
  - exists []. split; [reflexivity | constructor].
  - destruct (Py.isspace c) eqn:E.
    + exists (c :: pre). split; [simpl; congruence | now constructor].
    + exists []. split; [reflexivity | constructor].
Qed.

Lemma lstrip_head (s : Py.str) (c : N) (t : Py.str) :
  Py.lstrip s = c :: t -> Py.isspace c = false.
Proof.
  induction s as [|d s IH]; simpl; [discriminate|].
  destruct (Py.isspace d) eqn:E; [exact IH|]. now intros [= <- _].
Qed.

Lemma rstrip_split (s : Py.str) :
  exists suf, s = Py.rstrip s ++ suf /\ Forall (fun c => Py.isspace c = true) suf.
Proof.
  unfold Py.rstrip. destruct (lstrip_split (rev s)) as (pre & Hs & Hpre).
  exists (rev pre). split.
  - rewrite <- rev_app_distr, <- Hs. now rewrite rev_involutive.
  - apply Forall_rev. exact Hpre.
Qed.

Lemma rstrip_last (s t : Py.str) (c : N) :
  Py.rstrip s = t ++ [c] -> Py.isspace c = false.
Proof.
  unfold Py.rstrip. intros H.
  apply (f_equal (@rev N)) in H. rewrite rev_involutive, rev_app_distr in H.
  simpl in H. eapply lstrip_head; eassumption.
Qed.

(** Trimming at the right leaves a first character that is not a space
    where it is. *)
Lemma rstrip_head (s : Py.str) (c : N) (t : Py.str) :
  Py.rstrip s = c :: t -> exists t', s = c :: t'.
Proof.
  destruct (rstrip_split s) as (suf & Hs & _). intros H.
  rewrite H in Hs. simpl in Hs. eauto.
Qed.

Lemma strip_trimmed (s : Py.str) : trimmed_of s (Py.strip s).
Proof.
  unfold Py.strip. split; [|split].
  - destruct (lstrip_split s) as (pre & Hs & Hpre).
    destruct (rstrip_split (Py.lstrip s)) as (suf & Hl & Hsuf).
    exists pre, suf. split; [|split]; try assumption.
    now rewrite <- Hl.
  - intros c t H. destruct (rstrip_head _ _ _ H) as (t' & Ht').
    eapply lstrip_head; eassumption.
  - intros c t H. eapply rstrip_last; eassumption.
Qed.

(** C6. Every field the loop extracts is the text of the cell at its
    position with the white space before and after it removed; a cell
    holding two spaces, Acme Corp, a space and a line feed gives Acme Corp. *)
Theorem extracted_field_is_trimmed_text (row : bs4.node) (rec : list Py.str)
    (i : nat) (field : Py.str) :
  senate.extract row = Py.Return rec ->
  nth_error rec i = Some field ->
  (exists c,
     nth_error (bs4.find_all (py "td") row) i = Some c /\
     field = Py.strip (bs4.text c) /\
     trimmed_of (bs4.text c) field) /\
  senate.cell [fixtures.acme_cell] 0 = Py.Return (py "Acme Corp").
Proof.
  intros Hex Hi. split; [|vm_compute; reflexivity].
  apply extract_inv in Hex as (c0 & c1 & c2 & more & Hcells & ->).
  rewrite Hcells.
  destruct i as [|[|[|i]]]; simpl in Hi; try (destruct i; discriminate);
    injection Hi as <-; eexists; (split; [reflexivity|]);
    (split; [reflexivity | apply strip_trimmed]).
Qed.

Lemma extracted_field_is_trimmed_text_witness :
  (exists c,
     nth_error (bs4.find_all (py "td") fixtures.member_row) 2 = Some c /\
     py "The Analytical Engine, Ltd." = Py.strip (bs4.text c) /\
     trimmed_of (bs4.text c) (py "The Analytical Engine, Ltd.")) /\
  senate.cell [fixtures.acme_cell] 0 = Py.Return (py "Acme Corp").
Proof.
  apply (extracted_field_is_trimmed_text fixtures.member_row
           [py "Ada"; py "Lovelace"; py "The Analytical Engine, Ltd."] 2).
  - vm_compute; reflexivity.
  - reflexivity.
Defined.

(** ** The shape of a record (C3) *)

(** C3. A record the Senate loop extracts has as many fields as the header
    list, three, each taken from the cell at its position, and it is the row
    the loop writes; the header list of the SD WARN notebook has five names,
    and every row of [data_to_write] (there is none) has as many fields. *)
Theorem records_match_headers (row : bs4.node) (rec : list Py.str)
    (rows : list bs4.node) :
  senate.extract row = Py.Return rec ->
  (length rec = length senate.headers /\ length senate.headers = 3%nat /\
   exists c0 c1 c2 more,
     bs4.find_all (py "td") row = c0 :: c1 :: c2 :: more /\
     rec = [Py.strip (bs4.text c0); Py.strip (bs4.text c1); Py.strip (bs4.text c2)]) /\
  (forall w f, senate.body w f row = csv.writerow w f rec) /\
  length sd_warn.csv_headers = 5%nat /\
  Forall (fun r => length r = length sd_warn.csv_headers) (sd_warn.data_to_write rows).
Proof.
  intros Hex. split; [|split; [|split]].
  - destruct (extract_inv _ _ Hex) as (c0 & c1 & c2 & more & Hcells & ->).
    repeat split. eauto 6.
  - intros w f. now rewrite body_extract, Hex.
  - reflexivity.
  - rewrite data_to_write_nil. constructor.
Qed.

Lemma records_match_headers_witness :
  length [py "Ada"; py "Lovelace"; py "The Analytical Engine, Ltd."]
  = length senate.headers.
Proof.
  refine (proj1 (proj1 (records_match_headers fixtures.member_row
            [py "Ada"; py "Lovelace"; py "The Analytical Engine, Ltd."]
            fixtures.warn_rows _))).
  vm_compute; reflexivity.
Defined.

(** ** A page without a table (C2) *)

(** [find] returns None exactly when nothing below the node has the name. *)
Lemma find_None (name : Py.str) (n : bs4.node) :
  bs4.find name n = None <->
  Forall (fun d => bs4.is_tag name d = false) (bs4.descendants n).
Proof.
  unfold bs4.find, bs4.find_all.
  induction (bs4.descendants n) as [|d l IH]; simpl.
  - split; [constructor | reflexivity].
  - destruct (bs4.is_tag name d) eqn:E; simpl.
    + split; [discriminate | intros H; inversion H; congruence].
    + rewrite IH. split; [now constructor | intros H; now inversion H].
Qed.

(** C2, as the notebooks have it.  On a page with no table element [find]
    returns None, the not-found result; neither notebook tests it: the next
    statement looks [find_all] up on None, the run ends with AttributeError,
    and as the file is not yet opened the file system is left as it was. *)
Theorem missing_table_raises_AttributeError (w : World) (fs : FS)
    (req_senate req_sd : Response) :
  requests_get w senate.url = Py.Return req_senate ->
  requests_get w sd_warn.url = Py.Return req_sd ->
  Forall (fun d => bs4.is_tag (py "table") d = false)
    (bs4.descendants (BeautifulSoup w (text req_senate))) ->
  Forall (fun d => bs4.is_tag (py "table") d = false)
    (bs4.descendants (BeautifulSoup w (text req_sd))) ->
  bs4.find (py "table") (BeautifulSoup w (text req_senate)) = None /\
  bs4.find (py "table") (BeautifulSoup w (text req_sd)) = None /\
  senate.run w fs = (Py.Raise Py.AttributeError, fs) /\
  sd_warn.run w fs = (Py.Raise Py.AttributeError, fs).
Proof.
  intros Hs Hd Hns Hnd.
  apply find_None in Hns, Hnd.
  repeat split; try assumption.
  - rewrite senate_run_unfold, Hs. unfold senate.rows_of. now rewrite Hns.
  - rewrite sd_run_unfold, Hd. unfold sd_warn.rows_of. now rewrite Hnd.
Qed.

Lemma missing_table_raises_AttributeError_witness :
  senate.run fixtures.plain_world ∅ = (Py.Raise Py.AttributeError, ∅) /\
  sd_warn.run fixtures.plain_world ∅ = (Py.Raise Py.AttributeError, ∅).
Proof.
  refine (proj2 (proj2 (missing_table_raises_AttributeError fixtures.plain_world ∅
                          fixtures.ok fixtures.ok _ _ _ _))).
  - reflexivity.
  - reflexivity.
  - vm_compute. repeat constructor.
  - vm_compute. repeat constructor.
Defined.

(** C2, as it is stated, fails on a page that has a heading and a paragraph:
    the locator returns None, and the run does not report a missing table,
    it ends with the AttributeError of a method looked up on None. *)
Lemma missing_table_is_not_reported :
  bs4.find (py "table") fixtures.plain_page = None /\
  fst (senate.run fixtures.plain_world ∅) = Py.Raise Py.AttributeError /\
  fst (sd_warn.run fixtures.plain_world ∅) = Py.Raise Py.AttributeError.
Proof. vm_compute. repeat split. Qed.

(** ** Failing runs and the output file (C4) *)

Lemma write_frame (w : World) (f : io.TextIOWrapper) (s : Py.str) (fs : FS)
    (path : string) :
  path <> io.name f -> snd (io.write w f s fs) !! path = fs !! path.
Proof.
  intros Hne. unfold io.write.
  destruct (codecs.encode _ _); simpl; [|reflexivity].
  now rewrite lookup_insert_ne.
Qed.

Lemma senate_loop_frame (w : World) (f : io.TextIOWrapper)
    (rows : list bs4.node) (fs : FS) (path : string) :
  path <> io.name f ->
  snd (for_each rows (senate.body w f) fs) !! path = fs !! path.
Proof.
  intros Hne. revert fs. induction rows as [|row rows IH]; intros fs; simpl.
  - reflexivity.
  - unfold bind. rewrite body_extract.
    destruct (senate.extract row) as [e|rec]; [reflexivity|].
    unfold csv.writerow.
    pose proof (write_frame w f (csv.record rec) fs path Hne) as Hw.
    destruct (io.write w f (csv.record rec) fs) as [[e|[]] fs1]; simpl in *.
    + exact Hw.
    + now rewrite IH.
Qed.

(** No run of the first notebook touches another file than its own. *)
Lemma senate_run_frame (w : World) (fs : FS) (path : string) :
  path <> senate.outfile_name ->
  snd (senate.run w fs) !! path = fs !! path.
Proof.
  intros Hne. rewrite senate_run_unfold.
  destruct (requests_get w senate.url) as [e|req]; [reflexivity|].
  destruct (senate.rows_of _) as [e|rows]; [reflexivity|].
  unfold senate.write_cell, io.with_open, io.open_w, bind.
  destruct (writable w senate.outfile_name); [|reflexivity].
  set (f := {| io.name := _ |}).
  unfold csv.writerow.
  pose proof (write_frame w f (csv.record senate.headers)
                (<[senate.outfile_name := []]> fs) path Hne) as Hw.
  destruct (io.write w f _ _) as [[e|[]] fs1]; simpl in *.
  - rewrite Hw. now rewrite lookup_insert_ne.
  - rewrite (senate_loop_frame w f rows fs1 path Hne), Hw.
    now rewrite lookup_insert_ne.
Qed.

(** A run of the second notebook that fails has written nothing. *)
Lemma sd_failed_run (w : World) (fs : FS) (e : Py.exn) :
  fst (sd_warn.run w fs) = Py.Raise e -> snd (sd_warn.run w fs) = fs.
Proof.
  rewrite sd_run_unfold.
  destruct (requests_get w sd_warn.url) as [e'|req]; [reflexivity|].
  destruct (sd_warn.rows_of _) as [e'|rows]; [reflexivity|].
  rewrite data_to_write_nil.
  destruct (writable w sd_warn.outfile_name) eqn:Hw.
  - rewrite sd_write_cell_nil by assumption. discriminate.
  - unfold sd_warn.write_cell, io.with_open, io.open_w, bind. now rewrite Hw.
Qed.

(** A file that cannot be opened ends the run of the first notebook with
    nothing written. *)
Lemma senate_not_writable (w : World) (fs : FS) :
  writable w senate.outfile_name = false ->
  snd (senate.run w fs) = fs /\ exists e, fst (senate.run w fs) = Py.Raise e.
Proof.
  intros Hw. rewrite senate_run_unfold.
  destruct (requests_get w senate.url) as [e|req]; [simpl; eauto|].
  destruct (senate.rows_of _) as [e|rows]; [simpl; eauto|].
  unfold senate.write_cell, io.with_open, io.open_w, bind. rewrite Hw.
  simpl; eauto.
Qed.

(** However the loop ends, the file has gained the lines of the rows of a
    prefix of the table, and of all of them when the loop ends normally. *)
Lemma senate_loop_prefix (w : World) (f : io.TextIOWrapper)
    (rows : list bs4.node) (fs0 : FS) (cur : list byte) :
  io.newline f = Some [] ->
  exists good rest recs bs,
    rows = good ++ rest /\
    Forall2 (fun row rec => senate.extract row = Py.Return rec) good recs /\
    codecs.encode (io.encoding f) (csv_text recs) = Some bs /\
    snd (for_each rows (senate.body w f) (<[io.name f := cur]> fs0))
    = <[io.name f := cur ++ bs]> fs0 /\
    (fst (for_each rows (senate.body w f) (<[io.name f := cur]> fs0)) = Py.Return tt ->
     rest = []).
Proof.
  intros Hnl. revert cur. induction rows as [|row rows IH]; intros cur.
  - exists [], [], [], []. simpl. rewrite app_nil_r. repeat split; constructor.
  - assert (Hstop : forall e,
              for_each (row :: rows) (senate.body w f) (<[io.name f := cur]> fs0)
              = (Py.Raise e, <[io.name f := cur]> fs0) ->
              exists good rest recs bs,
                row :: rows = good ++ rest /\
                Forall2 (fun row rec => senate.extract row = Py.Return rec) good recs /\
                codecs.encode (io.encoding f) (csv_text recs) = Some bs /\
                snd (for_each (row :: rows) (senate.body w f) (<[io.name f := cur]> fs0))
                = <[io.name f := cur ++ bs]> fs0 /\
                (fst (for_each (row :: rows) (senate.body w f) (<[io.name f := cur]> fs0))
                 = Py.Return tt -> rest = [])).
    { intros e He. exists [], (row :: rows), [], []. rewrite He. simpl.
      rewrite app_nil_r. repeat split; try constructor. discriminate. }
    destruct (senate.extract row) as [e|rec] eqn:Hex.
    + apply (Hstop e). cbn [for_each]. unfold bind.
      now rewrite body_extract, Hex.
    + destruct (codecs.encode (io.encoding f) (csv.record rec)) as [x|] eqn:Hx.
      * destruct (IH (cur ++ x)) as (good & rest & recs & bs & -> & Hgood & Henc & Hsnd & Hfst).
        assert (Hstep : for_each (row :: good ++ rest) (senate.body w f)
                          (<[io.name f := cur]> fs0)
                        = for_each (good ++ rest) (senate.body w f)
                            (<[io.name f := cur ++ x]> fs0)).
        { cbn [for_each]. unfold bind. rewrite body_extract, Hex.
          unfold csv.writerow. now rewrite (write_appends _ _ _ _ _ x Hnl Hx). }
        exists (row :: good), rest, (rec :: recs), (x ++ bs).
        rewrite Hstep, Hsnd. repeat split.
        -- now constructor.
        -- unfold csv_text. cbn [map concat]. fold (csv_text recs).
           now rewrite encode_app, Hx, Henc.
        -- now rewrite <- app_assoc.
        -- exact Hfst.
      * apply (Hstop Py.UnicodeEncodeError). cbn [for_each]. unfold bind.
        rewrite body_extract, Hex. unfold csv.writerow.
        now rewrite (write_raises _ _ _ _ Hnl Hx).
Qed.

(** A failing run of the first notebook has left the file system as it
    was, or has left in the file the header line and the lines of the rows
    of a prefix of the table. *)
Lemma senate_failed_run (w : World) (fs : FS) (e : Py.exn) :
  fst (senate.run w fs) = Py.Raise e ->
  snd (senate.run w fs) = fs \/
  exists req table good rest recs bs,
    requests_get w senate.url = Py.Return req /\
    bs4.find (py "table") (BeautifulSoup w (text req)) = Some table /\
    Py.slice_from_1 (bs4.find_all (py "tr") table) = good ++ rest /\
    Forall2 (fun row rec => senate.extract row = Py.Return rec) good recs /\
    codecs.encode (getencoding w) (csv_text recs) = Some bs /\
    snd (senate.run w fs) = <[senate.outfile_name := senate_header_bytes ++ bs]> fs.
Proof.
  rewrite senate_run_unfold.
  destruct (requests_get w senate.url) as [e'|req] eqn:Hget; [now left|].
  unfold senate.rows_of.
  destruct (bs4.find (py "table") _) as [table|] eqn:Htable; [|now left].
  destruct (writable w senate.outfile_name) eqn:Hw.
  - rewrite senate_write_cell_unfold by assumption. intros _. right.
    set (f := {| io.name := senate.outfile_name; io.encoding := getencoding w;
                 io.newline := Some [] |}).
    destruct (senate_loop_prefix w f (Py.slice_from_1 (bs4.find_all (py "tr") table))
                fs senate_header_bytes eq_refl)
      as (good & rest & recs & bs & Hrows & Hgood & Henc & Hsnd & _).
    exists req, table, good, rest, recs, bs. repeat split; assumption.
  - unfold senate.write_cell, io.with_open, io.open_w, bind. rewrite Hw. now left.
Qed.

(** C4, as the notebooks have it.  In the Senate notebook the rows are
    extracted and written one at a time while the file is open: when the
    extraction of a row raises, the run ends with that exception and the
    file holds the header line and the rows written before.  A run that
    fails earlier (the request, the missing table, the file that cannot be
    opened) leaves the file system as it was, and so does every failing run
    of the SD WARN notebook, which writes in one go after its loop.  No run
    touches another file, and whatever makes a run of the Senate notebook
    fail, its file is left untouched or holds the header line and the lines
    of the first rows of the table. *)
Theorem failed_run_keeps_rows_written (w : World) (fs : FS) (req : Response)
    (table hdr : bs4.node) (good : list bs4.node) (bad : bs4.node)
    (rest : list bs4.node) (recs : list (list Py.str)) (bytes : list byte)
    (e : Py.exn) :
  requests_get w senate.url = Py.Return req ->
  bs4.find (py "table") (BeautifulSoup w (text req)) = Some table ->
  bs4.find_all (py "tr") table = hdr :: good ++ bad :: rest ->
  Forall2 (fun row rec => senate.extract row = Py.Return rec) good recs ->
  senate.extract bad = Py.Raise e ->
  writable w senate.outfile_name = true ->
  codecs.encode (getencoding w) (csv_text recs) = Some bytes ->
  senate.run w fs
  = (Py.Raise e, <[senate.outfile_name := senate_header_bytes ++ bytes]> fs) /\
  (forall w' fs' e',
     requests_get w' senate.url = Py.Raise e' ->
     senate.run w' fs' = (Py.Raise e', fs')) /\
  (forall w' fs' req',
     requests_get w' senate.url = Py.Return req' ->
     bs4.find (py "table") (BeautifulSoup w' (text req')) = None ->
     senate.run w' fs' = (Py.Raise Py.AttributeError, fs')) /\
  (forall w' fs',
     writable w' senate.outfile_name = false ->
     snd (senate.run w' fs') = fs' /\ exists e', fst (senate.run w' fs') = Py.Raise e') /\
  (forall w' fs' e',
     fst (sd_warn.run w' fs') = Py.Raise e' -> snd (sd_warn.run w' fs') = fs') /\
  (forall w' fs' path,
     path <> senate.outfile_name ->
     snd (senate.run w' fs') !! path = fs' !! path) /\
  (forall w' fs' e',
     fst (senate.run w' fs') = Py.Raise e' ->
     snd (senate.run w' fs') = fs' \/
     exists req' table' good' rest' recs' bs',
       requests_get w' senate.url = Py.Return req' /\
       bs4.find (py "table") (BeautifulSoup w' (text req')) = Some table' /\
       Py.slice_from_1 (bs4.find_all (py "tr") table') = good' ++ rest' /\
       Forall2 (fun row rec => senate.extract row = Py.Return rec) good' recs' /\
       codecs.encode (getencoding w') (csv_text recs') = Some bs' /\
       snd (senate.run w' fs')
       = <[senate.outfile_name := senate_header_bytes ++ bs']> fs').
Proof.
  intros Hget Htable Hrows Hgood Hbad Hw Henc.
  split; [|split; [|split; [|split; [|split; [|split]]]]].
  - rewrite senate_run_unfold, Hget. unfold senate.rows_of.
    rewrite Htable, Hrows. unfold Py.slice_from_1. cbn [skipn].
    rewrite skipn_O, senate_write_cell_unfold by assumption.
    set (f := {| io.name := _ |}).
    pose proof (senate_loop_app w f good (bad :: rest) recs fs
                  senate_header_bytes bytes eq_refl Hgood Henc) as H.
    cbn [io.name f] in H. rewrite H. cbn [for_each]. unfold bind.
    rewrite body_extract, Hbad. reflexivity.
  - intros w' fs' e' H. now rewrite senate_run_unfold, H.
  - intros w' fs' req' H1 H2. rewrite senate_run_unfold, H1.
    unfold senate.rows_of. now rewrite H2.
  - intros w' fs'. apply senate_not_writable.
  - intros w' fs' e'. apply sd_failed_run.
  - intros w' fs' path. apply senate_run_frame.
  - intros w' fs' e'. apply senate_failed_run.
Qed.

Lemma failed_run_keeps_rows_written_witness :
  senate.run fixtures.ragged_world ∅
  = (Py.Raise Py.IndexError,
     <[senate.outfile_name := senate_header_bytes ++ fixtures.member_line]> ∅).
Proof.
  refine (proj1 (failed_run_keeps_rows_written fixtures.ragged_world ∅ fixtures.ok
           (bs4.Tag (py "table") [] fixtures.ragged_rows)
           (fixtures.tr [bs4.Tag (py "th") [] [bs4.NavigableString (py "Name")]])
           [fixtures.member_row]
           (fixtures.tr [fixtures.td (py "Grace"); fixtures.td (py "Hopper")])
           [fixtures.tr [fixtures.td (py "Alan"); fixtures.td (py "Turing");
                         fixtures.td (py "Mind")]]
           [[py "Ada"; py "Lovelace"; py "The Analytical Engine, Ltd."]]
           fixtures.member_line Py.IndexError _ _ _ _ _ _ _)).
  - reflexivity.
  - vm_compute; reflexivity.
  - vm_compute; reflexivity.
  - repeat constructor.
  - vm_compute; reflexivity.
  - reflexivity.
  - vm_compute; reflexivity.
Defined.

(** C4, as it is stated, fails on a table whose third row has two cells:
    the run ends with IndexError, and the file, which did not exist, now
    holds the header line and the one row written before the failure. *)
Lemma failed_extraction_leaves_partial_file :
  (∅ : FS) !! senate.outfile_name = None /\
  fst (senate.run fixtures.ragged_world ∅) = Py.Raise Py.IndexError /\
  snd (senate.run fixtures.ragged_world ∅) !! senate.outfile_name
  = Some (senate_header_bytes ++ fixtures.member_line).
Proof. vm_compute. repeat split. Qed.

(** ** The encoding of the files (C8) *)

Lemma write_ignores_linesep (w : World) (l : Py.str) (f : io.TextIOWrapper)
    (s : Py.str) (fs : FS) :
  io.newline f = Some [] ->
  io.write (with_linesep w l) f s fs = io.write w f s fs.
Proof.
  intros Hnl. unfold io.write. now rewrite Hnl, !translate_empty_newline.
Qed.

Lemma for_each_ext {A} (l : list A) (body1 body2 : A -> M unit) (fs : FS) :
  (forall x fs', body1 x fs' = body2 x fs') ->
  for_each l body1 fs = for_each l body2 fs.
Proof.
  intros H. revert fs. induction l as [|x l IH]; intros fs; [reflexivity|].
  cbn [for_each]. unfold bind. rewrite H.
  destruct (body2 x fs) as [[e|[]] fs']; [reflexivity|apply IH].
Qed.

(** Neither file depends on the line separator of the platform: both are
    opened with [newline=''], and the writer's '\r\n' goes out as it is. *)
Lemma runs_ignore_linesep (w : World) (l : Py.str) (fs : FS) :
  senate.run (with_linesep w l) fs = senate.run w fs /\
  sd_warn.run (with_linesep w l) fs = sd_warn.run w fs.
Proof.
  split.
  - rewrite !senate_run_unfold. cbn [with_linesep requests_get BeautifulSoup].
    destruct (requests_get w senate.url) as [e|req]; [reflexivity|].
    destruct (senate.rows_of _) as [e|rows]; [reflexivity|].
    unfold senate.write_cell, io.with_open, io.open_w, bind.
    cbn [with_linesep writable getencoding].
    destruct (writable w senate.outfile_name); [|reflexivity].
    unfold csv.writerow. rewrite write_ignores_linesep by reflexivity.
    destruct (io.write w _ _ _) as [[e|[]] fs']; [reflexivity|].
    apply for_each_ext. intros row fs''. rewrite !body_extract.
    destruct (senate.extract row); [reflexivity|].
    unfold csv.writerow. now rewrite write_ignores_linesep.
  - rewrite !sd_run_unfold. cbn [with_linesep requests_get BeautifulSoup].
    destruct (requests_get w sd_warn.url) as [e|req]; [reflexivity|].
    destruct (sd_warn.rows_of _) as [e|rows]; [reflexivity|].
    unfold sd_warn.write_cell, io.with_open, io.open_w, bind.
    cbn [with_linesep writable getencoding].
    destruct (writable w sd_warn.outfile_name); [|reflexivity].
    unfold csv.writerows, csv.writerow.
    rewrite write_ignores_linesep by reflexivity.
    destruct (io.write w _ _ _) as [[e|[]] fs']; [reflexivity|].
    apply for_each_ext. intros row fs''.
    unfold csv.writerow. now rewrite write_ignores_linesep.
Qed.

(** The file of the second notebook is written in UTF-8 on every machine. *)
Lemma sd_file_is_utf_8 (w : World) (fs : FS) (data : list (list Py.str))
    (bytes : list byte) :
  writable w sd_warn.outfile_name = true ->
  codecs.encode codecs.utf_8 (csv_text data) = Some bytes ->
  sd_warn.write_cell w data fs
  = (Py.Return tt, <[sd_warn.outfile_name := sd_header_bytes ++ bytes]> fs).
Proof.
  intros Hw Henc. unfold sd_warn.write_cell, io.with_open, io.open_w, bind.
  rewrite Hw. unfold csv.writerow.
  set (f := {| io.name := _ |}).
  pose proof (write_appends w f _ fs [] sd_header_bytes eq_refl sd_header_encodes) as H.
  cbn [io.name f] in H. rewrite H. cbn [app].
  pose proof (writerows_appends w f data fs sd_header_bytes bytes eq_refl Henc) as H'.
  cbn [io.name f] in H'. exact H'.
Qed.

(** C8 on the first notebook.  Its [open] names no encoding, so the file is
    written in the encoding of the locale: on a machine whose locale is code
    page 1252 the row of José Martí goes out with one byte for each accented
    letter, where UTF-8 has two, and the file is not UTF-8 text at all. *)
Theorem senate_file_in_locale_encoding :
  senate.run fixtures.windows_world ∅
  = (Py.Return tt,
     <[senate.outfile_name := senate_header_bytes ++ fixtures.accented_line_cp1252]> ∅) /\
  (exists rec,
     senate.extract fixtures.accented_row = Py.Return rec /\
     codecs.encode codecs.utf_8 (csv_text [senate.headers; rec])
     = Some (senate_header_bytes ++ fixtures.accented_line_utf_8)) /\
  senate_header_bytes ++ fixtures.accented_line_cp1252
  <> senate_header_bytes ++ fixtures.accented_line_utf_8 /\
  codecs.decode codecs.utf_8 (senate_header_bytes ++ fixtures.accented_line_cp1252)
  = None.
Proof.
  split; [vm_compute; reflexivity|]. split; [|split].
  - eexists. split; vm_compute; reflexivity.
  - vm_compute. discriminate.
  - vm_compute. reflexivity.
Qed.

(** ** Links (C7) *)

(** C7 on the notebook as shipped.  A notice whose first cell holds a link
    to /docs/report.pdf: the loop prints the row and nothing more, so the
    reference is neither resolved nor written, and the file holds the header
    line only. *)
Theorem sd_warn_link_is_not_resolved :
  (exists a, bs4.find (py "a") fixtures.notice_row = Some a /\
             a = fixtures.report_link) /\
  sd_warn.run fixtures.notices_world ∅
  = (Py.Return tt, <[sd_warn.outfile_name := sd_header_bytes]> ∅).
Proof.
  split; [eexists; split; vm_compute; reflexivity|].
  vm_compute; reflexivity.
Qed.

(** ** Round trip through the reader (C5) *)

Lemma join_append_data_spec (f : Py.str) :
  csv.join_append_data f = (existsb csv.special f, escape f).
Proof.
  induction f as [|c f IH]; simpl; [reflexivity|].
  rewrite IH. destruct (csv.special c) eqn:Hs; simpl.
  - destruct (c =? csv.quotechar)%N; reflexivity.
  - unfold csv.special in Hs.
    destruct (c =? csv.quotechar)%N; [|reflexivity].
    rewrite orb_true_r in Hs. discriminate.
Qed.

Lemma escape_plain (f : Py.str) :
  existsb csv.special f = false -> escape f = f.
Proof.
  induction f as [|c f IH]; simpl; [reflexivity|].
  intros H. apply orb_false_elim in H as [Hc Hf].
  rewrite (IH Hf). unfold csv.special in Hc.
  destruct (c =? csv.quotechar)%N; [|reflexivity].
  rewrite orb_true_r in Hc. discriminate.
Qed.

Lemma join_append_spec (f : Py.str) :
  csv.join_append f =
  if existsb csv.special f then csv.quotechar :: escape f ++ [csv.quotechar] else f.
Proof.
  unfold csv.join_append. rewrite join_append_data_spec.
  destruct (existsb csv.special f) eqn:E; [reflexivity|]. now apply escape_plain.
Qed.

Lemma join_cons (f : Py.str) (row : list Py.str) :
  csv.join (f :: row) = csv.join_append f ++ tail_text row.
Proof.
  revert f. induction row as [|g row IH]; intros f.
  - simpl. now rewrite app_nil_r.
  - change (csv.join (f :: g :: row))
      with (csv.join_append f ++ csv.delimiter :: csv.join (g :: row)).
    rewrite IH. reflexivity.
Qed.

(** *** Lines *)

Lemma readlines_plain (cur : Py.str) (c : N) (s : Py.str) :
  c <> 10%N -> c <> 13%N ->
  csv_reader.readlines_from cur (c :: s) = csv_reader.readlines_from (cur ++ [c]) s.
Proof.
  intros H10 H13. simpl.
  destruct (N.eqb_spec c 10); [contradiction|].
  destruct (N.eqb_spec c 13); [contradiction|]. reflexivity.
Qed.

Lemma readlines_lf (cur s : Py.str) :
  csv_reader.readlines_from cur (10%N :: s)
  = (cur ++ [10%N]) :: csv_reader.readlines_from [] s.
Proof. reflexivity. Qed.

Lemma readlines_cr_lf (cur s : Py.str) :
  csv_reader.readlines_from cur (13%N :: 10%N :: s)
  = csv_reader.readlines_from (cur ++ [13%N]) (10%N :: s).
Proof. simpl. now rewrite <- app_assoc. Qed.

Lemma readlines_cr (cur s : Py.str) :
  (forall s', s <> 10%N :: s') ->
  csv_reader.readlines_from cur (13%N :: s)
  = (cur ++ [13%N]) :: csv_reader.readlines_from [] s.
Proof.
  intros H. destruct s as [|c s]; [reflexivity|].
  cbn [csv_reader.readlines_from]. cbn.
  destruct (N.eqb_spec c 10) as [->|]; [now destruct (H s)|reflexivity].
Qed.

Section RoundTrip.

Variable field_limit : N.

#[local] Abbreviation feed := (csv_reader.feed field_limit).
#[local] Abbreviation step := (csv_reader.parse_process_char field_limit).
#[local] Abbreviation records := (csv_reader.records field_limit).
#[local] Abbreviation K := (reader_from field_limit).
#[local] Abbreviation sim := (takes field_limit).
#[local] Abbreviation fitting := (fits field_limit).

Lemma feed_app (r : csv_reader.Reader) (a b : Py.str) :
  feed r (a ++ b) =
  match feed r a with
  | Py.Raise e => Py.Raise e
  | Py.Return r' => feed r' b
  end.
Proof.
  revert r. induction a as [|c a IH]; intros r; simpl; [reflexivity|].
  destruct (step r (Some c)); [reflexivity|]. apply IH.
Qed.

Lemma feed_snoc (r0 r1 r2 : csv_reader.Reader) (cur : Py.str) (c : N) :
  feed r0 cur = Py.Return r1 ->
  step r1 (Some c) = Py.Return r2 ->
  feed r0 (cur ++ [c]) = Py.Return r2.
Proof. intros H1 H2. rewrite feed_app, H1. simpl. now rewrite H2. Qed.

Lemma sim_nil (r : csv_reader.Reader) : sim r [] r.
Proof. intros r0 cur rest acc H. exists r0, cur. now split. Qed.

Lemma sim_app (r1 r2 r3 : csv_reader.Reader) (a b : Py.str) :
  sim r1 a r2 -> sim r2 b r3 -> sim r1 (a ++ b) r3.
Proof.
  intros H1 H2 r0 cur rest acc H.
  destruct (H1 r0 cur (b ++ rest) acc H) as (r0' & cur' & H' & E1).
  destruct (H2 r0' cur' rest acc H') as (r0'' & cur'' & H'' & E2).
  exists r0'', cur''. split; [assumption|].
  now rewrite <- app_assoc, E1, E2.
Qed.

(** A character that ends no line. *)
Lemma sim_plain (r r' : csv_reader.Reader) (c : N) :
  c <> 10%N -> c <> 13%N ->
  step r (Some c) = Py.Return r' ->
  sim r [c] r'.
Proof.
  intros H10 H13 Hstep r0 cur rest acc H.
  exists r0, (cur ++ [c]). split.
  - eapply feed_snoc; eassumption.
  - unfold reader_from. change ([c] ++ rest) with (c :: rest).
    now rewrite readlines_plain.
Qed.

(** The end of a line inside a quoted field. *)
Lemma process_line_quoted (r0 r1 r2 : csv_reader.Reader) (cur nl : Py.str) :
  feed r0 cur = Py.Return r1 ->
  feed r1 nl = Py.Return r2 ->
  csv_reader.state r2 = csv_reader.IN_QUOTED_FIELD ->
  csv_reader.process_line field_limit r0 (cur ++ nl) = Py.Return r2.
Proof.
  intros H1 H2 Hst. unfold csv_reader.process_line.
  rewrite feed_app, H1, H2. unfold csv_reader.parse_process_char. now rewrite Hst.
Qed.

Lemma K_line_quoted (r0 r1 r2 : csv_reader.Reader) (cur nl rest : Py.str)
    (acc : list (list Py.str)) :
  feed r0 cur = Py.Return r1 ->
  feed r1 nl = Py.Return r2 ->
  csv_reader.state r2 = csv_reader.IN_QUOTED_FIELD ->
  records r0 ((cur ++ nl) :: csv_reader.readlines_from [] rest) acc
  = K r2 [] rest acc.
Proof.
  intros H1 H2 Hst. simpl.
  rewrite (process_line_quoted _ _ _ _ _ H1 H2 Hst), Hst. reflexivity.
Qed.

Lemma sim_newline_quoted (r r' : csv_reader.Reader) (c : N) :
  c = 10%N \/ c = 13%N ->
  step r (Some c) = Py.Return r' ->
  csv_reader.state r' = csv_reader.IN_QUOTED_FIELD ->
  sim r [c] r'.
Proof.
  intros Hc Hstep Hst r0 cur rest acc H.
  assert (Hfeed : feed r [c] = Py.Return r') by (simpl; now rewrite Hstep).
  destruct Hc as [-> | ->].
  - exists r', []. split; [reflexivity|].
    unfold reader_from at 1. simpl app. rewrite readlines_lf.
    eapply K_line_quoted; eassumption.
  - destruct rest as [|c2 rest].
    + exists r', []. split; [reflexivity|].
      unfold reader_from at 1. simpl app. rewrite readlines_cr by discriminate.
      eapply K_line_quoted; eassumption.
    + destruct (N.eq_dec c2 10%N) as [->|Hne].
      * exists r0, (cur ++ [13%N]). split.
        -- eapply feed_snoc; eassumption.
        -- unfold reader_from. simpl app. now rewrite readlines_cr_lf.
      * exists r', []. split; [reflexivity|].
        unfold reader_from at 1. simpl app. rewrite readlines_cr by congruence.
        eapply K_line_quoted; eassumption.
Qed.


#[local] Abbreviation mk := csv_reader.Build_Reader.

Lemma special_false (c : N) :
  csv.special c = false ->
  c <> csv.delimiter /\ c <> csv.quotechar /\ c <> 10%N /\ c <> 13%N.
Proof.
  unfold csv.special. intros H.
  repeat (apply orb_false_elim in H as [H ?]).
  repeat split; apply N.eqb_neq; assumption.
Qed.

Lemma add_char (st : csv_reader.ParserState) (b : Py.str) (init : list Py.str) (c : N) :
  (N.of_nat (length b) < field_limit)%N ->
  csv_reader.parse_add_char field_limit (mk st b init) c
  = Py.Return (mk st (b ++ [c]) init).
Proof.
  intros H. unfold csv_reader.parse_add_char. simpl.
  destruct (N.leb_spec field_limit (N.of_nat (length b))); [lia|reflexivity].
Qed.

Lemma fits_snoc (b : Py.str) (c : N) (f : Py.str) :
  fitting (b ++ c :: f) -> (N.of_nat (length b) < field_limit)%N /\ fitting ((b ++ [c]) ++ f).
Proof.
  unfold fitting. rewrite <- app_assoc. simpl. rewrite !length_app. simpl. lia.
Qed.

(** Inside an unquoted field. *)
Lemma sim_in_field (f b : Py.str) (init : list Py.str) :
  existsb csv.special f = false ->
  fitting (b ++ f) ->
  sim (mk csv_reader.IN_FIELD b init) f (mk csv_reader.IN_FIELD (b ++ f) init).
Proof.
  revert b. induction f as [|c f IH]; intros b Hs Hfit.
  - rewrite app_nil_r. apply sim_nil.
  - simpl in Hs. apply orb_false_elim in Hs as [Hc Hf].
    destruct (special_false c Hc) as (Hd & Hq & H10 & H13).
    destruct (fits_snoc _ _ _ Hfit) as [Hlt Hfit'].
    change (c :: f) with ([c] ++ f).
    replace (b ++ [c] ++ f) with ((b ++ [c]) ++ f) by now rewrite <- app_assoc.
    apply (sim_app _ (mk csv_reader.IN_FIELD (b ++ [c]) init) _ [c]);
      [|apply IH; assumption].
    apply sim_plain; try assumption.
    unfold csv_reader.parse_process_char, csv_reader.is_nl. simpl.
    apply N.eqb_neq in Hd, H10, H13. rewrite Hd, H10, H13. simpl.
    now apply add_char.
Qed.

(** Inside a quoted field. *)
Lemma sim_in_quoted (f b : Py.str) (init : list Py.str) :
  fitting (b ++ f) ->
  sim (mk csv_reader.IN_QUOTED_FIELD b init) (escape f)
      (mk csv_reader.IN_QUOTED_FIELD (b ++ f) init).
Proof.
  revert b. induction f as [|c f IH]; intros b Hfit.
  - rewrite app_nil_r. apply sim_nil.
  - destruct (fits_snoc _ _ _ Hfit) as [Hlt Hfit'].
    replace (b ++ c :: f) with ((b ++ [c]) ++ f) by now rewrite <- app_assoc.
    simpl. destruct (N.eqb_spec c csv.quotechar) as [->|Hq].
    + change (csv.quotechar :: csv.quotechar :: escape f)
        with ([csv.quotechar] ++ [csv.quotechar] ++ escape f).
      apply (sim_app _ (mk csv_reader.QUOTE_IN_QUOTED_FIELD b init) _ [csv.quotechar]).
      { apply sim_plain; [discriminate..|]. reflexivity. }
      apply (sim_app _ (mk csv_reader.IN_QUOTED_FIELD (b ++ [csv.quotechar]) init) _
               [csv.quotechar]); [|apply IH; assumption].
      apply sim_plain; [discriminate..|].
      unfold csv_reader.parse_process_char. simpl.
      unfold csv_reader.set_state.
      now rewrite add_char.
    + change (c :: escape f) with ([c] ++ escape f). simpl app.
      change (c :: escape f) with ([c] ++ escape f).
      apply (sim_app _ (mk csv_reader.IN_QUOTED_FIELD (b ++ [c]) init) _ [c]);
        [|apply IH; assumption].
      assert (Hstep : step (mk csv_reader.IN_QUOTED_FIELD b init) (Some c)
                      = Py.Return (mk csv_reader.IN_QUOTED_FIELD (b ++ [c]) init)).
      { unfold csv_reader.parse_process_char. simpl.
        apply N.eqb_neq in Hq. rewrite Hq. now apply add_char. }
      destruct (N.eq_dec c 10%N) as [H10|H10];
        [|destruct (N.eq_dec c 13%N) as [H13|H13]].
      * apply sim_newline_quoted; auto.
      * apply sim_newline_quoted; auto.
      * apply sim_plain; assumption.
Qed.


(** One field, as [join_append] writes it, read at the start of a record or
    of a field. *)
Lemma sim_field (st : csv_reader.ParserState) (f : Py.str) (init : list Py.str) :
  st = csv_reader.START_RECORD \/ st = csv_reader.START_FIELD ->
  fitting f ->
  exists r',
    sim (mk st [] init) (csv.join_append f) r' /\
    csv_reader.field r' = f /\ csv_reader.fields r' = init /\
    (csv.join_append f = [] /\ f = [] /\ csv_reader.state r' = st \/
     csv.join_append f <> [] /\
     (csv_reader.state r' = csv_reader.IN_FIELD \/
      csv_reader.state r' = csv_reader.QUOTE_IN_QUOTED_FIELD)).
Proof.
  intros Hst Hfit. rewrite join_append_spec.
  destruct (existsb csv.special f) eqn:Hs.
  - exists (mk csv_reader.QUOTE_IN_QUOTED_FIELD f init).
    split; [|simpl; repeat split; right; split; [discriminate|auto]].
    change (csv.quotechar :: escape f ++ [csv.quotechar])
      with ([csv.quotechar] ++ escape f ++ [csv.quotechar]).
    apply (sim_app _ (mk csv_reader.IN_QUOTED_FIELD [] init) _ [csv.quotechar]).
    { apply sim_plain; [discriminate..|]. destruct Hst as [-> | ->]; reflexivity. }
    apply (sim_app _ (mk csv_reader.IN_QUOTED_FIELD ([] ++ f) init) _ (escape f)).
    { apply sim_in_quoted. exact Hfit. }
    apply sim_plain; [discriminate..|]. reflexivity.
  - destruct f as [|c f].
    + exists (mk st [] init). split; [apply sim_nil|]. simpl.
      repeat split. left. auto.
    + exists (mk csv_reader.IN_FIELD (c :: f) init).
      split; [|simpl; repeat split; right; split; [discriminate|auto]].
      simpl in Hs. apply orb_false_elim in Hs as [Hc Hf].
      destruct (special_false c Hc) as (Hd & Hq & H10 & H13).
      destruct (fits_snoc [] c f Hfit) as [Hlt Hfit'].
      change (c :: f) with ([c] ++ f) at 1.
      apply (sim_app _ (mk csv_reader.IN_FIELD [c] init) _ [c]).
      * apply sim_plain; try assumption.
        apply N.eqb_neq in Hd, Hq, H10, H13.
        destruct Hst as [-> | ->];
          unfold csv_reader.parse_process_char, csv_reader.start_field,
            csv_reader.is_nl; simpl; rewrite ?Hd, ?Hq, ?H10, ?H13; simpl;
          rewrite add_char by assumption; reflexivity.
      * apply (sim_in_field f [c] init Hf Hfit').
Qed.

Lemma step_delimiter (r : csv_reader.Reader) :
  csv_reader.state r = csv_reader.START_RECORD \/ after_field r ->
  step r (Some csv.delimiter)
  = Py.Return (mk csv_reader.START_FIELD [] (csv_reader.fields r ++ [csv_reader.field r])).
Proof.
  intros [H | [H | [H | H]]]; unfold csv_reader.parse_process_char; rewrite H;
    reflexivity.
Qed.

Lemma step_cr (r : csv_reader.Reader) :
  after_field r ->
  step r (Some 13%N)
  = Py.Return (mk csv_reader.EAT_CRNL [] (csv_reader.fields r ++ [csv_reader.field r])).
Proof.
  intros [H | [H | H]]; unfold csv_reader.parse_process_char; rewrite H;
    reflexivity.
Qed.

(** The fields after the first. *)
Lemma sim_tail (row : list Py.str) (r : csv_reader.Reader) :
  after_field r \/ (csv_reader.state r = csv_reader.START_RECORD /\ row <> []) ->
  Forall fitting row ->
  exists r',
    sim r (tail_text row) r' /\ after_field r' /\
    csv_reader.fields r' ++ [csv_reader.field r']
    = (csv_reader.fields r ++ [csv_reader.field r]) ++ row.
Proof.
  revert r. induction row as [|f row IH]; intros r Hr Hfit.
  - exists r. split; [apply sim_nil|]. rewrite app_nil_r.
    destruct Hr as [Hr | [_ Hr]]; [auto | contradiction].
  - inversion Hfit as [|? ? Hf Hrow]; subst.
    set (init := csv_reader.fields r ++ [csv_reader.field r]).
    destruct (sim_field csv_reader.START_FIELD f init (or_intror eq_refl) Hf)
      as (r2 & Hsim2 & Hfield2 & Hfields2 & Hstate2).
    assert (Hafter2 : after_field r2).
    { unfold after_field. destruct Hstate2 as [(_ & _ & H) | [_ [H | H]]]; auto. }
    destruct (IH r2 (or_introl Hafter2) Hrow) as (r' & Hsim' & Hafter' & Hfinal).
    exists r'. split; [|split; [assumption|]].
    + unfold tail_text. simpl. fold (tail_text row).
      change (csv.delimiter :: csv.join_append f ++ tail_text row)
        with ([csv.delimiter] ++ csv.join_append f ++ tail_text row).
      apply (sim_app _ (mk csv_reader.START_FIELD [] init) _ [csv.delimiter]).
      { apply sim_plain; [discriminate..|]. apply step_delimiter.
        destruct Hr as [Hr | [Hr _]]; auto. }
      apply (sim_app _ r2 _ (csv.join_append f)); assumption.
    + rewrite Hfinal, Hfield2, Hfields2. now rewrite <- app_assoc.
Qed.

(** The '\r\n' that ends a record. *)
Lemma K_terminator (r0 r1 r2 : csv_reader.Reader) (cur rest : Py.str)
    (acc : list (list Py.str)) :
  feed r0 cur = Py.Return r1 ->
  step r1 (Some 13%N) = Py.Return r2 ->
  csv_reader.state r2 = csv_reader.EAT_CRNL ->
  K r0 cur (csv.lineterminator ++ rest) acc
  = K csv_reader.parse_reset [] rest (acc ++ [csv_reader.fields r2]).
Proof.
  intros Hfeed Hstep Hst. unfold reader_from.
  change (csv.lineterminator ++ rest) with (13%N :: 10%N :: rest).
  rewrite readlines_cr_lf, readlines_lf. cbn [csv_reader.records].
  unfold csv_reader.process_line.
  rewrite <- app_assoc. rewrite feed_app, Hfeed. simpl. rewrite Hstep.
  unfold csv_reader.parse_process_char. rewrite Hst. simpl.
  rewrite Hst. reflexivity.
Qed.

(** One record, written and read back. *)
Lemma record_read_back (row : list Py.str) (rest : Py.str) (acc : list (list Py.str)) :
  Forall fitting row ->
  K csv_reader.parse_reset [] (csv.record row ++ rest) acc
  = K csv_reader.parse_reset [] rest (acc ++ [row]).
Proof.
  intros Hfit. destruct row as [|f row].
  - change (csv.record []) with csv.lineterminator.
    now rewrite (K_terminator csv_reader.parse_reset csv_reader.parse_reset
                   (mk csv_reader.EAT_CRNL [] []) [] rest acc).
  - inversion Hfit as [|? ? Hf Hrow]; subst.
    destruct (sim_field csv_reader.START_RECORD f [] (or_introl eq_refl) Hf)
      as (r1 & Hsim1 & Hfield1 & Hfields1 & Hstate1).
    assert (Hcase : (csv.join_append f = [] /\ f = [] /\ row = []) \/
                    exists r2, sim csv_reader.parse_reset (csv.join (f :: row)) r2 /\
                               after_field r2 /\
                               csv_reader.fields r2 ++ [csv_reader.field r2] = f :: row /\
                               csv.join (f :: row) <> []).
    { destruct Hstate1 as [(Hj & Hnil & Hst) | [Hj Hst]].
      - destruct row as [|g row]; [left; auto|right].
        destruct (sim_tail (g :: row) r1) as (r2 & Hsim2 & Hafter2 & Hfinal);
          [right; split; [assumption|discriminate] | assumption |].
        exists r2. rewrite join_cons. split; [|split; [assumption|split]].
        + apply (sim_app _ r1); assumption.
        + rewrite Hfinal, Hfield1, Hfields1. reflexivity.
        + rewrite Hj. discriminate.
      - right.
        assert (Hafter1 : after_field r1) by (unfold after_field; tauto).
        destruct (sim_tail row r1 (or_introl Hafter1) Hrow)
          as (r2 & Hsim2 & Hafter2 & Hfinal).
        exists r2. rewrite join_cons. split; [|split; [assumption|split]].
        + apply (sim_app _ r1); assumption.
        + rewrite Hfinal, Hfield1, Hfields1. reflexivity.
        + intros Happ. apply app_eq_nil in Happ as [Hj' _]. contradiction. }
    destruct Hcase as [(Hj & -> & ->) | (r2 & Hsim & Hafter & Hfinal & Hne)].
    + change (csv.record [[]])
        with ([csv.quotechar] ++ [csv.quotechar] ++ csv.lineterminator).
      rewrite <- !app_assoc.
      destruct (sim_plain csv_reader.parse_reset
                  (mk csv_reader.IN_QUOTED_FIELD [] []) csv.quotechar
                  ltac:(discriminate) ltac:(discriminate) eq_refl
                  csv_reader.parse_reset []
                  ([csv.quotechar] ++ csv.lineterminator ++ rest) acc eq_refl)
        as (ra & cura & Hfa & ->).
      destruct (sim_plain (mk csv_reader.IN_QUOTED_FIELD [] [])
                  (mk csv_reader.QUOTE_IN_QUOTED_FIELD [] []) csv.quotechar
                  ltac:(discriminate) ltac:(discriminate) eq_refl
                  ra cura (csv.lineterminator ++ rest) acc Hfa)
        as (rb & curb & Hfb & ->).
      now rewrite (K_terminator rb _ (mk csv_reader.EAT_CRNL [] [[]]) curb rest acc Hfb).
    + assert (Hrec : csv.record (f :: row) = csv.join (f :: row) ++ csv.lineterminator).
      { unfold csv.record. destruct (csv.join (f :: row)); [contradiction|reflexivity]. }
      rewrite Hrec, <- app_assoc.
      destruct (Hsim csv_reader.parse_reset [] (csv.lineterminator ++ rest) acc eq_refl)
        as (ra & cura & Hfa & ->).
      rewrite (K_terminator ra r2 _ cura rest acc Hfa (step_cr r2 Hafter) eq_refl).
      simpl. now rewrite Hfinal.
Qed.

(** Rows written by [csv.writer], read back by [csv.reader]: the rows. *)
Lemma reader_from_csv_text (rows acc : list (list Py.str)) :
  Forall (Forall fitting) rows ->
  K csv_reader.parse_reset [] (csv_text rows) acc = Py.Return (acc ++ rows).
Proof.
  revert acc. induction rows as [|row rows IH]; intros acc Hfit.
  - now rewrite app_nil_r.
  - inversion Hfit as [|? ? Hrow Hrows]; subst.
    unfold csv_text. simpl. fold (csv_text rows).
    rewrite record_read_back by assumption.
    rewrite IH by assumption. now rewrite <- app_assoc.
Qed.

Lemma reader_csv_text (rows : list (list Py.str)) :
  Forall (Forall fitting) rows ->
  csv_reader.reader field_limit (csv_text rows) = Py.Return rows.
Proof. intros H. exact (reader_from_csv_text rows [] H). Qed.

End RoundTrip.

(** ** Decoding what was encoded *)

Lemma to_N_byte_of (n : N) : (n < 256)%N -> Byte.to_N (codecs.byte_of n) = n.
Proof.
  intros H. unfold codecs.byte_of.
  pose proof (Byte.to_of_N_option_map n) as E.
  destruct (N.leb_spec n 255); [|lia].
  destruct (Byte.of_N n); simpl in E; congruence.
Qed.

Lemma continuation_byte_of (x : N) :
  (x < 64)%N -> codecs.continuation (codecs.byte_of (128 + x)) = Some x.
Proof.
  intros H. unfold codecs.continuation. rewrite to_N_byte_of by lia.
  split_tests. simpl. f_equal. lia.
Qed.

Lemma utf_8_decode_char (c : N) (bs rest : list byte) :
  codecs.utf_8_encode_char c = Some bs ->
  codecs.utf_8_decode (bs ++ rest) = option_map (cons c) (codecs.utf_8_decode rest).
Proof.
  unfold codecs.utf_8_encode_char.
  destruct (N.ltb_spec c 128); [|destruct (N.ltb_spec c 2048);
    [|destruct (N.ltb_spec c 65536); [|destruct (N.ltb_spec c 1114112)]]].
  - intros [= <-]. cbn [app codecs.utf_8_decode]. rewrite to_N_byte_of by lia.
    destruct (N.ltb_spec c 128); [reflexivity|lia].
  - intros [= <-]. cbn [app codecs.utf_8_decode].
    rewrite to_N_byte_of by div_lia.
    rewrite continuation_byte_of by div_lia.
    split_tests. do 2 f_equal. div_lia.
  - destruct ((55296 <=? c)%N && (c <=? 57343)%N) eqn:Hsur; [discriminate|].
    intros [= <-]. cbn [app codecs.utf_8_decode].
    rewrite to_N_byte_of by div_lia.
    rewrite !continuation_byte_of by div_lia.
    assert (E : ((224 + c / 4096 - 224) * 4096 + (c / 64) mod 64 * 64 + c mod 64 = c)%N)
      by div_lia.
    rewrite E, Hsur.
    split_tests. reflexivity.
  - intros [= <-]. cbn [app codecs.utf_8_decode].
    rewrite to_N_byte_of by div_lia.
    rewrite !continuation_byte_of by div_lia.
    assert (E : ((240 + c / 262144 - 240) * 262144 + (c / 4096) mod 64 * 4096
                 + (c / 64) mod 64 * 64 + c mod 64 = c)%N) by div_lia.
    rewrite E.
    split_tests. reflexivity.
  - discriminate.
Qed.

Lemma cp1252_table_inverse (c b : N) :
  codecs.cp1252_byte_for c codecs.cp1252_high = Some b ->
  (128 <= b < 160)%N /\ codecs.cp1252_char_for b codecs.cp1252_high = Some c.
Proof.
  unfold codecs.cp1252_high. cbn [codecs.cp1252_byte_for].
  repeat match goal with
         | |- context [(?a =? c)%N] =>
             destruct (N.eqb_spec a c);
             [intros [= <-]; subst c; split; [lia | reflexivity]|]
         end.
  discriminate.
Qed.

Lemma cp1252_decode_char (c : N) (bs : list byte) :
  codecs.cp1252_encode_char c = Some bs ->
  exists b, bs = [b] /\ codecs.cp1252_decode_byte b = Some c.
Proof.
  unfold codecs.cp1252_encode_char.
  destruct ((c <? 128)%N || (160 <=? c)%N && (c <=? 255)%N) eqn:E.
  - intros [= <-]. eexists. split; [reflexivity|].
    assert (c < 256)%N.
    { apply orb_true_iff in E as [E|E]; [apply N.ltb_lt in E; lia|].
      apply andb_true_iff in E as [_ E]. apply N.leb_le in E. lia. }
    unfold codecs.cp1252_decode_byte. rewrite to_N_byte_of by assumption.
    apply orb_true_iff in E as [E|E].
    + now rewrite E.
    + apply andb_true_iff in E as [E _]. rewrite E. now rewrite orb_true_r.
  - destruct (codecs.cp1252_byte_for c codecs.cp1252_high) as [b|] eqn:Hb; [|discriminate].
    intros [= <-]. eexists. split; [reflexivity|].
    destruct (cp1252_table_inverse c b Hb) as [Hrange Hc].
    unfold codecs.cp1252_decode_byte. rewrite to_N_byte_of by lia.
    destruct (N.ltb_spec b 128); [lia|]. destruct (N.leb_spec 160 b); [lia|].
    exact Hc.
Qed.

(** What was encoded decodes to the text it came from. *)
Lemma decode_encode (e : codecs.Encoding) (s : Py.str) (bs : list byte) :
  codecs.encode e s = Some bs -> codecs.decode e bs = Some s.
Proof.
  revert bs. induction s as [|c s IH]; intros bs.
  - intros [= <-]. destruct e; reflexivity.
  - simpl. destruct (codecs.encode_char e c) as [x|] eqn:Hx; [|discriminate].
    destruct (codecs.encode e s) as [y|]; [|discriminate].
    intros [= <-]. specialize (IH y eq_refl).
    destruct e; simpl in *.
    + rewrite (utf_8_decode_char c x y Hx), IH. reflexivity.
    + destruct (cp1252_decode_char c x Hx) as (b & -> & Hb).
      simpl. now rewrite Hb, IH.
Qed.

(** ** Files written and read back *)

Lemma with_open_writerows (w : World) (fs : FS) (nm : string)
    (enc : option codecs.Encoding) (rows : list (list Py.str)) (bytes : list byte) :
  writable w nm = true ->
  codecs.encode (match enc with Some e => e | None => getencoding w end) (csv_text rows)
  = Some bytes ->
  io.with_open w nm (Some []) enc (fun f => csv.writerows w f rows) fs
  = (Py.Return tt, <[nm := bytes]> fs).
Proof.
  intros Hw Henc. unfold io.with_open, io.open_w, bind. rewrite Hw.
  set (f := {| io.name := _ |}).
  pose proof (writerows_appends w f rows fs [] bytes eq_refl Henc) as H.
  cbn [io.name f app] in H. exact H.
Qed.

Lemma read_csv_written (limit : N) (w : World) (fs : FS) (nm : string)
    (enc : option codecs.Encoding) (rows : list (list Py.str)) (bytes : list byte) :
  Forall (Forall (fits limit)) rows ->
  codecs.encode (match enc with Some e => e | None => getencoding w end) (csv_text rows)
  = Some bytes ->
  csv_reader.read_csv limit w nm enc (<[nm := bytes]> fs)
  = (Py.Return rows, <[nm := bytes]> fs).
Proof.
  intros Hfit Henc. unfold csv_reader.read_csv, bind, io.read, lift.
  rewrite lookup_insert_eq, (decode_encode _ _ _ Henc).
  now rewrite reader_csv_text.
Qed.

(** C5. Rows written by [csv.writer] to a file opened as the notebooks open
    theirs, and read back by [csv.reader] from the file opened with the same
    encoding and [newline='']: the reader yields the rows, as many, field by
    field and in order, whatever delimiters, quotes and line breaks the
    fields hold.  (The rows are such that the file's encoding has their
    characters and no field is longer than the reader's field size limit.) *)
Theorem csv_round_trip (limit : N) (w : World) (fs : FS) (nm : string)
    (enc : option codecs.Encoding) (rows : list (list Py.str)) (bytes : list byte) :
  Forall (Forall (fits limit)) rows ->
  writable w nm = true ->
  codecs.encode (match enc with Some e => e | None => getencoding w end) (csv_text rows)
  = Some bytes ->
  csv_reader.reader limit (csv_text rows) = Py.Return rows /\
  exists fs',
    io.with_open w nm (Some []) enc (fun f => csv.writerows w f rows) fs
    = (Py.Return tt, fs') /\
    csv_reader.read_csv limit w nm enc fs' = (Py.Return rows, fs').
Proof.
  intros Hfit Hw Henc. split; [now apply reader_csv_text|].
  exists (<[nm := bytes]> fs). split.
  - now apply with_open_writerows.
  - now apply read_csv_written.
Qed.

Lemma csv_round_trip_witness :
  csv_reader.reader 131072 (csv_text fixtures.awkward_rows)
  = Py.Return fixtures.awkward_rows.
Proof.
  refine (proj1 (csv_round_trip 131072 fixtures.bare_world ∅ sd_warn.outfile_name
                   (Some codecs.utf_8) fixtures.awkward_rows
                   (match codecs.encode codecs.utf_8 (csv_text fixtures.awkward_rows) with
                    | Some bs => bs
                    | None => []
                    end) _ _ _)).
  - repeat constructor; unfold fits; simpl; lia.
  - reflexivity.
  - vm_compute; reflexivity.
Defined.

(** ** Every row of the table (C1) *)

Lemma extract_trimmed_cells (row : bs4.node) :
  (3 <= length (bs4.find_all (py "td") row))%nat ->
  senate.extract row = Py.Return (trimmed_cells row).
Proof.
  intros H. unfold trimmed_cells.
  destruct (bs4.find_all (py "td") row) as [|c0 [|c1 [|c2 more]]] eqn:E;
    simpl in H; try lia.
  now rewrite (extract_three _ _ _ _ _ E).
Qed.

(** C1, as the notebook has it.  On a page whose table has a header row
    followed by data rows of three cells or more each, the text of whose
    first three cells the encoding of the file has, the Senate notebook
    ends normally and leaves a file that holds the line of the fixed header
    and then one line for each data row, in the order of the table: as many
    records as data rows, and read back they are the header and the records
    of the rows in that order. *)
Theorem senate_writes_every_row (w : World) (fs : FS) (req : Response)
    (table hdr : bs4.node) (data : list bs4.node) (bytes : list byte) :
  requests_get w senate.url = Py.Return req ->
  bs4.find (py "table") (BeautifulSoup w (text req)) = Some table ->
  bs4.find_all (py "tr") table = hdr :: data ->
  Forall (fun row => (3 <= length (bs4.find_all (py "td") row))%nat) data ->
  writable w senate.outfile_name = true ->
  codecs.encode (getencoding w) (csv_text (map trimmed_cells data)) = Some bytes ->
  senate.run w fs
  = (Py.Return tt, <[senate.outfile_name := senate_header_bytes ++ bytes]> fs) /\
  codecs.encode (getencoding w) (csv_text (senate.headers :: map trimmed_cells data))
  = Some (senate_header_bytes ++ bytes) /\
  length (map trimmed_cells data) = length data /\
  (forall limit,
     Forall (Forall (fits limit)) (senate.headers :: map trimmed_cells data) ->
     fst (csv_reader.read_csv limit w senate.outfile_name None
            (<[senate.outfile_name := senate_header_bytes ++ bytes]> fs))
     = Py.Return (senate.headers :: map trimmed_cells data)).
Proof.
  intros Hget Htable Hrows Hdata Hw Henc.
  assert (Hall : codecs.encode (getencoding w)
                   (csv_text (senate.headers :: map trimmed_cells data))
                 = Some (senate_header_bytes ++ bytes)).
  { unfold csv_text. cbn [map concat]. fold (csv_text (map trimmed_cells data)).
    now rewrite encode_app, senate_header_encodes, Henc. }
  split; [|split; [exact Hall|split; [apply length_map|]]].
  - rewrite senate_run_unfold, Hget. unfold senate.rows_of.
    rewrite Htable, Hrows. unfold Py.slice_from_1. cbn [skipn].
    rewrite skipn_O, senate_write_cell_unfold by assumption.
    set (f := {| io.name := _ |}).
    assert (Hex : Forall2 (fun row rec => senate.extract row = Py.Return rec)
                    data (map trimmed_cells data)).
    { clear -Hdata. induction Hdata; constructor; auto using extract_trimmed_cells. }
    pose proof (senate_loop_app w f data [] (map trimmed_cells data) fs
                  senate_header_bytes bytes eq_refl Hex Henc) as H.
    cbn [io.name f] in H. rewrite app_nil_r in H. exact H.
  - intros limit Hfit.
    now rewrite (read_csv_written limit w fs senate.outfile_name None _ _ Hfit Hall).
Qed.

Lemma senate_writes_every_row_witness :
  senate.run more_fixtures.members_world ∅
  = (Py.Return tt,
     <[senate.outfile_name :=
         senate_header_bytes
         ++ (fixtures.accented_line_cp1252 ++ fixtures.member_line
             ++ more_fixtures.third_line)]> ∅).
Proof.
  refine (proj1 (senate_writes_every_row more_fixtures.members_world ∅ fixtures.ok
           more_fixtures.members_table more_fixtures.members_header
           more_fixtures.three_members
           (fixtures.accented_line_cp1252 ++ fixtures.member_line
            ++ more_fixtures.third_line) _ _ _ _ _ _)).
  - reflexivity.
  - vm_compute; reflexivity.
  - vm_compute; reflexivity.
  - repeat constructor.
  - reflexivity.
  - vm_compute; reflexivity.
Defined.

(** C1, as it is stated, fails on a table of a header row and three data
    rows the second of which has two cells only: the run ends with
    IndexError and the file holds, and gives back when read, the header and
    one data row.  It fails as well on a table of a header row and three
    data rows of three cells, the second with a letter the code page of the
    locale lacks: the run ends with UnicodeEncodeError and the file holds
    the header and one data row. *)
Lemma ragged_table_is_cut_short :
  bs4.find (py "table") (BeautifulSoup fixtures.ragged_world (text fixtures.ok))
  = Some (bs4.Tag (py "table") [] fixtures.ragged_rows) /\
  bs4.find_all (py "tr") (bs4.Tag (py "table") [] fixtures.ragged_rows)
  = fixtures.ragged_rows /\
  length (Py.slice_from_1 fixtures.ragged_rows) = 3%nat /\
  fst (senate.run fixtures.ragged_world ∅) = Py.Raise Py.IndexError /\
  snd (senate.run fixtures.ragged_world ∅) !! senate.outfile_name
  = Some (senate_header_bytes ++ fixtures.member_line) /\
  fst (csv_reader.read_csv 131072 fixtures.ragged_world senate.outfile_name None
         (snd (senate.run fixtures.ragged_world ∅)))
  = Py.Return [senate.headers;
               [py "Ada"; py "Lovelace"; py "The Analytical Engine, Ltd."]] /\
  bs4.find (py "table") (BeautifulSoup more_fixtures.polish_world (text fixtures.ok))
  = Some (bs4.Tag (py "table") [] more_fixtures.polish_rows) /\
  bs4.find_all (py "tr") (bs4.Tag (py "table") [] more_fixtures.polish_rows)
  = more_fixtures.polish_rows /\
  length (Py.slice_from_1 more_fixtures.polish_rows) = 3%nat /\
  Forall (fun row => length (bs4.find_all (py "td") row) = 3%nat)
    (Py.slice_from_1 more_fixtures.polish_rows) /\
  fst (senate.run more_fixtures.polish_world ∅) = Py.Raise Py.UnicodeEncodeError /\
  snd (senate.run more_fixtures.polish_world ∅) !! senate.outfile_name
  = Some (senate_header_bytes ++ fixtures.accented_line_cp1252).
Proof. vm_compute. repeat split; repeat constructor. Qed.

(** * Further properties of the notebooks *)

(** ** The tree queries *)

Lemma descendants_Tag (nm : Py.str) (attrs : list (Py.str * Py.str))
    (cs : list bs4.node) :
  bs4.descendants (bs4.Tag nm attrs cs)
  = flat_map (fun c => c :: bs4.descendants c) cs.
Proof.
  cbn [bs4.descendants]. induction cs as [|c cs IH]; [reflexivity|].
  cbn [flat_map]. rewrite <- IH. reflexivity.
Qed.

Lemma filter_flat_map {A B} (f : B -> bool) (g : A -> list B) (l : list A) :
  List.filter f (flat_map g l) = flat_map (fun x => List.filter f (g x)) l.
Proof.
  induction l as [|x l IH]; [reflexivity|].
  cbn [flat_map]. now rewrite List.filter_app, IH.
Qed.

(** Induction on a node, its children assumed to satisfy the property. *)
Lemma node_induction (P : bs4.node -> Prop) :
  (forall nm attrs cs, Forall P cs -> P (bs4.Tag nm attrs cs)) ->
  (forall s, P (bs4.NavigableString s)) ->
  (forall k s, P (bs4.Special k s)) ->
  forall n, P n.
Proof.
  intros HT HN HS.
  fix IH 1. intros [nm attrs cs | s | k s]; [|apply HN|apply HS].
  apply HT. induction cs as [|c cs IHcs]; constructor; [apply IH|exact IHcs].
Qed.

Lemma descendants_trans (n c d : bs4.node) :
  In c (bs4.descendants n) -> In d (bs4.descendants c) -> In d (bs4.descendants n).
Proof.
  revert c d. induction n as [nm attrs cs IH | s | k s] using node_induction;
    intros c d Hc Hd; try contradiction.
  rewrite descendants_Tag in *. apply in_flat_map in Hc as (k & Hk & Hc).
  apply in_flat_map. exists k. split; [assumption|].
  destruct Hc as [<- | Hc]; [now right|].
  right. rewrite List.Forall_forall in IH. eapply IH; eassumption.
Qed.

(** X1. [find] stops at the first table of the document: the rows of both
    notebooks are those of that table, whatever tables follow it. *)
Theorem rows_come_from_first_table (soup table : bs4.node)
    (before after : list bs4.node) :
  bs4.descendants soup = before ++ table :: after ->
  bs4.is_tag (py "table") table = true ->
  Forall (fun d => bs4.is_tag (py "table") d = false) before ->
  bs4.find (py "table") soup = Some table /\
  senate.rows_of soup = Py.Return (Py.slice_from_1 (bs4.find_all (py "tr") table)) /\
  sd_warn.rows_of soup = Py.Return (bs4.find_all (py "tr") table).
Proof.
  intros Hd Ht Hb.
  assert (Hfind : bs4.find (py "table") soup = Some table).
  { unfold bs4.find, bs4.find_all. rewrite Hd, List.filter_app.
    replace (List.filter (bs4.is_tag (py "table")) before) with (@nil bs4.node).
    - cbn [app List.filter]. now rewrite Ht.
    - clear -Hb. induction Hb as [|d l Hd _ IH]; [reflexivity|].
      cbn [List.filter]. now rewrite Hd. }
  unfold senate.rows_of, sd_warn.rows_of. rewrite Hfind. auto.
Qed.

Lemma rows_come_from_first_table_witness :
  senate.rows_of more_fixtures.two_tables = Py.Return [] /\
  sd_warn.rows_of more_fixtures.two_tables
  = Py.Return [fixtures.tr [fixtures.td (py "Menu")]].
Proof.
  refine (proj2 (rows_come_from_first_table more_fixtures.two_tables
                   more_fixtures.first_table
                   [bs4.Tag (py "div") [] [bs4.NavigableString (py "Press gallery")];
                    bs4.NavigableString (py "Press gallery")]
                   (skipn 3 (bs4.descendants more_fixtures.two_tables)) _ _ _)).
  - vm_compute; reflexivity.
  - vm_compute; reflexivity.
  - repeat constructor.
Defined.

(** X2. [find_all] searches at every depth: what it finds below a node is,
    child by child and in order, the child itself when it has the name and
    then what is found below the child; so the rows (and cells) of a table
    nested anywhere in a cell count as rows (and cells) of the outer one. *)
Theorem find_all_searches_every_depth (name : Py.str) (n c r : bs4.node) :
  In c (bs4.descendants n) ->
  In r (bs4.find_all name c) ->
  In r (bs4.find_all name n) /\
  forall nm attrs cs,
    bs4.find_all name (bs4.Tag nm attrs cs)
    = flat_map (fun k => (if bs4.is_tag name k then [k] else []) ++ bs4.find_all name k) cs.
Proof.
  intros Hc Hr. split.
  - unfold bs4.find_all in *. apply List.filter_In in Hr as [Hr Hname].
    apply List.filter_In. split; [|assumption].
    eapply descendants_trans; eassumption.
  - intros nm attrs cs. unfold bs4.find_all.
    rewrite descendants_Tag, filter_flat_map.
    apply flat_map_ext. intros k. cbn [List.filter].
    destruct (bs4.is_tag name k); reflexivity.
Qed.

Lemma find_all_searches_every_depth_witness :
  In more_fixtures.inner_row (bs4.find_all (py "tr") more_fixtures.nesting_table).
Proof.
  refine (proj1 (find_all_searches_every_depth (py "tr") more_fixtures.nesting_table
                   (bs4.Tag (py "table") [] [more_fixtures.inner_row])
                   more_fixtures.inner_row _ _)).
  - vm_compute. auto.
  - vm_compute. auto.
Defined.

Lemma interesting_same_class (a b : Py.str) (n : bs4.node) :
  bs4.string_containers a = bs4.string_containers b ->
  bs4.interesting a n = bs4.interesting b n.
Proof. intros H. unfold bs4.interesting. now rewrite H. Qed.

Lemma interesting_nothing (nm : Py.str) (l : list bs4.node) :
  bs4.string_containers nm = None ->
  Forall (fun d => forall s, d <> bs4.NavigableString s) l ->
  concat (map (bs4.interesting nm) l) = [].
Proof.
  intros Hnm. induction 1 as [|d l Hd _ IH]; [reflexivity|].
  cbn [map concat]. rewrite IH, app_nil_r.
  unfold bs4.interesting. rewrite Hnm.
  destruct d as [cn ca ccs | s | k s]; [reflexivity| |reflexivity].
  now destruct (Hd s).
Qed.

(** X3. The text of a cell (of any element that is no script, style,
    template, rt or rp element) is made of its children one after the
    other: a string child gives itself, a comment or another special string
    nothing, an element child its own text, except a script, style,
    template, rt or rp child, which gives nothing when all strings inside
    it are special, as the parser leaves them.  Markup inside a cell never
    reaches the field, only the strings do: a cell holding a space, a link
    around a bold Acme, a comment, a line break element and Corp between
    two spaces gives Acme Corp; so does a cell with script elements inside,
    although the text of the script element itself is its content. *)
Theorem text_of_children (nm : Py.str) (attrs : list (Py.str * Py.str))
    (cs : list bs4.node) :
  bs4.string_containers nm = None ->
  Forall (fun c => match c with
                   | bs4.Tag cn _ _ =>
                       bs4.string_containers cn <> None ->
                       Forall (fun d => forall s, d <> bs4.NavigableString s)
                         (bs4.descendants c)
                   | _ => True
                   end) cs ->
  bs4.text (bs4.Tag nm attrs cs)
  = flat_map (fun c => match c with
                       | bs4.Tag cn _ _ =>
                           match bs4.string_containers cn with
                           | Some _ => []
                           | None => bs4.text c
                           end
                       | _ => bs4.text c
                       end) cs /\
  senate.cell [more_fixtures.marked_up_cell] 0 = Py.Return (py "Acme Corp") /\
  senate.cell [more_fixtures.scripted_cell] 0 = Py.Return (py "Acme Corp") /\
  bs4.text more_fixtures.script = py "track(1);".
Proof.
  intros Hnm Hcs. split; [|repeat split; vm_compute; reflexivity].
  unfold bs4.text at 1. rewrite descendants_Tag.
  induction Hcs as [|c cs Hc _ IH]; [reflexivity|].
  cbn [flat_map]. rewrite map_app, concat_app, IH. f_equal.
  cbn [map concat].
  destruct c as [cn ca ccs | s | k s].
  - replace (bs4.interesting nm (bs4.Tag cn ca ccs)) with (@nil N)
      by (unfold bs4.interesting; now destruct (bs4.string_containers nm)).
    cbn [app].
    destruct (bs4.string_containers cn) as [k|] eqn:Hcn.
    + apply interesting_nothing; [assumption|]. now apply Hc.
    + unfold bs4.text. f_equal. apply map_ext. intros d.
      apply interesting_same_class. now rewrite Hnm, Hcn.
  - unfold bs4.interesting. rewrite Hnm. cbn. now rewrite app_nil_r.
  - unfold bs4.interesting. rewrite Hnm. reflexivity.
Qed.

Lemma text_of_children_witness :
  bs4.text more_fixtures.marked_up_cell
  = flat_map (fun c => match c with
                       | bs4.Tag cn _ _ =>
                           match bs4.string_containers cn with
                           | Some _ => []
                           | None => bs4.text c
                           end
                       | _ => bs4.text c
                       end)
      [bs4.NavigableString (py " ");
       bs4.Tag (py "a") [(py "href", py "/acme")]
         [bs4.Tag (py "b") [] [bs4.NavigableString (py "Acme")]];
       bs4.Special bs4.Comment (py " was: Apex ");
       bs4.Tag (py "br") [] [];
       bs4.NavigableString (py " Corp ")].
Proof.
  refine (proj1 (text_of_children (py "td") [] _ _ _)).
  - reflexivity.
  - repeat (apply List.Forall_cons;
            [try exact I; intros H; exfalso; apply H; vm_compute; reflexivity|]).
    apply List.Forall_nil.
Defined.

(** ** More on trimming *)

Lemma lstrip_spaces_app (pre x : Py.str) :
  Forall (fun c => Py.isspace c = true) pre -> Py.lstrip (pre ++ x) = Py.lstrip x.
Proof.
  induction 1 as [|c pre Hc _ IH]; [reflexivity|].
  cbn [app Py.lstrip]. now rewrite Hc.
Qed.

Lemma lstrip_spaces (s : Py.str) :
  Forall (fun c => Py.isspace c = true) s -> Py.lstrip s = [].
Proof.
  intros H. rewrite <- (app_nil_r s). now rewrite lstrip_spaces_app.
Qed.

Lemma rstrip_spaces_app (x suf : Py.str) :
  Forall (fun c => Py.isspace c = true) suf -> Py.rstrip (x ++ suf) = Py.rstrip x.
Proof.
  intros H. unfold Py.rstrip. rewrite rev_app_distr.
  rewrite lstrip_spaces_app; [reflexivity|]. now apply Forall_rev.
Qed.

Lemma rstrip_ends_well (t : Py.str) (c : N) :
  Py.isspace c = false -> Py.rstrip (t ++ [c]) = t ++ [c].
Proof.
  intros H. unfold Py.rstrip. rewrite rev_app_distr. cbn [rev app Py.lstrip].
  rewrite H. cbn [rev]. now rewrite rev_involutive.
Qed.

(** X4. [strip] touches nothing but the two ends: however a text splits into
    white space, a field that neither starts nor ends with white space, and
    white space, that field is what [strip] returns, the white space inside
    it included; and trimming it again changes nothing. *)
Theorem strip_is_the_trimmed_text (s f : Py.str) :
  trimmed_of s f -> Py.strip s = f /\ Py.strip f = f.
Proof.
  assert (Hself : forall g,
            (forall c t, g = c :: t -> Py.isspace c = false) ->
            (forall c t, g = t ++ [c] -> Py.isspace c = false) ->
            forall suf, Forall (fun c => Py.isspace c = true) suf ->
            Py.rstrip (Py.lstrip (g ++ suf)) = g).
  { intros g Hhead Hlast suf Hsuf. destruct g as [|c t].
    - cbn [app]. now rewrite lstrip_spaces.
    - cbn [app Py.lstrip]. rewrite (Hhead c t eq_refl).
      change (c :: t ++ suf) with ((c :: t) ++ suf).
      rewrite rstrip_spaces_app by assumption.
      destruct (exists_last (l := c :: t) ltac:(discriminate)) as (t' & c' & E).
      rewrite E. apply rstrip_ends_well. eapply Hlast. exact E. }
  intros ((pre & suf & -> & Hpre & Hsuf) & Hhead & Hlast). unfold Py.strip. split.
  - rewrite lstrip_spaces_app by assumption. now apply Hself.
  - rewrite <- (app_nil_r f) at 1. apply Hself; auto.
Qed.

Lemma strip_is_the_trimmed_text_witness :
  Py.strip (py "  The  Analytical Engine  ") = py "The  Analytical Engine" /\
  Py.strip (py "The  Analytical Engine") = py "The  Analytical Engine".
Proof.
  apply (strip_is_the_trimmed_text (py "  The  Analytical Engine  ")
           (py "The  Analytical Engine")).
  split; [|split].
  - exists (py "  "), (py "  "). split; [reflexivity|].
    split; repeat constructor.
  - intros c t [= <- _]. reflexivity.
  - intros c t H. apply (f_equal (@rev N)) in H. rewrite rev_app_distr in H.
    vm_compute in H. injection H as <-. reflexivity.
Defined.

(** X5. A cell that holds white space only (or nothing) gives the empty
    field and no error: a row of three such cells is extracted as three
    empty fields, which [writerow] writes as two commas. *)
Theorem blank_cells_give_empty_fields (row c0 c1 c2 : bs4.node)
    (more : list bs4.node) :
  bs4.find_all (py "td") row = c0 :: c1 :: c2 :: more ->
  Forall (fun c => Forall (fun ch => Py.isspace ch = true) (bs4.text c)) [c0; c1; c2] ->
  senate.extract row = Py.Return [[]; []; []] /\
  csv.record [[]; []; []] = [csv.delimiter; csv.delimiter] ++ csv.lineterminator.
Proof.
  intros Hcells Hblank. split; [|reflexivity].
  rewrite (extract_three _ _ _ _ _ Hcells).
  assert (Hs : forall c, Forall (fun ch => Py.isspace ch = true) (bs4.text c) ->
                         Py.strip (bs4.text c) = []).
  { intros c H. unfold Py.strip. now rewrite lstrip_spaces. }
  inversion Hblank as [|? ? H0 Hb1]; subst. inversion Hb1 as [|? ? H1 Hb2]; subst.
  inversion Hb2 as [|? ? H2 _]; subst.
  now rewrite (Hs _ H0), (Hs _ H1), (Hs _ H2).
Qed.

Lemma blank_cells_give_empty_fields_witness :
  senate.extract (fixtures.tr [fixtures.td (py "  "); fixtures.td [];
                               fixtures.td [9; 10; 160]%N])
  = Py.Return [[]; []; []].
Proof.
  refine (proj1 (blank_cells_give_empty_fields _ (fixtures.td (py "  "))
                   (fixtures.td []) (fixtures.td [9; 10; 160]%N) [] _ _)).
  - vm_compute; reflexivity.
  - repeat constructor.
Defined.

(** X6. The loop reads the first three cells of a row and no other: rows
    that agree on them give the same record, whatever cells follow. *)
Theorem cells_past_the_third_are_dropped (row1 row2 : bs4.node) :
  firstn 3 (bs4.find_all (py "td") row1) = firstn 3 (bs4.find_all (py "td") row2) ->
  (3 <= length (bs4.find_all (py "td") row1))%nat ->
  senate.extract row1 = senate.extract row2 /\
  senate.extract row1 = Py.Return (trimmed_cells row1).
Proof.
  intros Hsame Hlen.
  assert (Hlen2 : (3 <= length (bs4.find_all (py "td") row2))%nat).
  { apply (f_equal (@length _)) in Hsame. rewrite !length_firstn in Hsame. lia. }
  rewrite !extract_trimmed_cells by assumption.
  unfold trimmed_cells. now rewrite Hsame.
Qed.

Lemma cells_past_the_third_are_dropped_witness :
  senate.extract more_fixtures.wide_row = senate.extract fixtures.member_row.
Proof.
  refine (proj1 (cells_past_the_third_are_dropped more_fixtures.wide_row
                   fixtures.member_row _ _)).
  - vm_compute; reflexivity.
  - vm_compute; lia.
Defined.

(** ** Runs and the file system *)

(** The loop adds to the file, and ends, in a way that does not depend on
    what the file system holds. *)
Lemma senate_loop_uniform (w : World) (f : io.TextIOWrapper) (rows : list bs4.node) :
  io.newline f = Some [] ->
  exists r bs, forall fs0 cur,
    for_each rows (senate.body w f) (<[io.name f := cur]> fs0)
    = (r, <[io.name f := cur ++ bs]> fs0).
Proof.
  intros Hnl. induction rows as [|row rows (r & bs & IH)].
  - exists (Py.Return tt), []. intros fs0 cur. now rewrite app_nil_r.
  - destruct (senate.extract row) as [e|rec] eqn:Hex.
    + exists (Py.Raise e), []. intros fs0 cur. cbn [for_each]. unfold bind.
      rewrite body_extract, Hex. now rewrite app_nil_r.
    + destruct (codecs.encode (io.encoding f) (csv.record rec)) as [x|] eqn:Hx.
      * exists r, (x ++ bs). intros fs0 cur. cbn [for_each]. unfold bind.
        rewrite body_extract, Hex. unfold csv.writerow.
        rewrite (write_appends _ _ _ _ _ x Hnl Hx), IH. now rewrite <- app_assoc.
      * exists (Py.Raise Py.UnicodeEncodeError), []. intros fs0 cur.
        cbn [for_each]. unfold bind. rewrite body_extract, Hex.
        unfold csv.writerow. rewrite (write_raises _ _ _ _ Hnl Hx).
        now rewrite app_nil_r.
Qed.

(** Once its file is opened, a run of the first notebook replaces it. *)
Lemma senate_run_opened (w : World) (req : Response) (table : bs4.node) :
  requests_get w senate.url = Py.Return req ->
  bs4.find (py "table") (BeautifulSoup w (text req)) = Some table ->
  writable w senate.outfile_name = true ->
  exists r bytes, forall fs,
    senate.run w fs = (r, <[senate.outfile_name := bytes]> fs).
Proof.
  intros Hget Htable Hw.
  set (f := {| io.name := senate.outfile_name; io.encoding := getencoding w;
               io.newline := Some [] |}).
  destruct (senate_loop_uniform w f
              (Py.slice_from_1 (bs4.find_all (py "tr") table)) eq_refl)
    as (r & bs & Hloop).
  exists r, (senate_header_bytes ++ bs). intros fs.
  rewrite senate_run_unfold, Hget. unfold senate.rows_of. rewrite Htable.
  rewrite senate_write_cell_unfold by assumption. apply Hloop.
Qed.

Lemma senate_run_uniform (w : World) :
  exists r,
    (forall fs, senate.run w fs = (r, fs)) \/
    (exists bytes, forall fs, senate.run w fs = (r, <[senate.outfile_name := bytes]> fs)).
Proof.
  destruct (requests_get w senate.url) as [e|req] eqn:Hget.
  { exists (Py.Raise e). left. intros fs. now rewrite senate_run_unfold, Hget. }
  destruct (bs4.find (py "table") (BeautifulSoup w (text req))) as [table|] eqn:Htable.
  2:{ exists (Py.Raise Py.AttributeError). left. intros fs.
      rewrite senate_run_unfold, Hget. unfold senate.rows_of. now rewrite Htable. }
  destruct (writable w senate.outfile_name) eqn:Hw.
  - destruct (senate_run_opened w req table Hget Htable Hw) as (r & bytes & H).
    exists r. right. eauto.
  - exists (Py.Raise Py.OSError). left. intros fs.
    rewrite senate_run_unfold, Hget. unfold senate.rows_of. rewrite Htable.
    unfold senate.write_cell, io.with_open, io.open_w, bind. now rewrite Hw.
Qed.

Lemma sd_run_opened (w : World) (req : Response) (table : bs4.node) (fs : FS) :
  requests_get w sd_warn.url = Py.Return req ->
  bs4.find (py "table") (BeautifulSoup w (text req)) = Some table ->
  writable w sd_warn.outfile_name = true ->
  sd_warn.run w fs = (Py.Return tt, <[sd_warn.outfile_name := sd_header_bytes]> fs).
Proof.
  intros Hget Htable Hw. rewrite sd_run_unfold, Hget. unfold sd_warn.rows_of.
  rewrite Htable, data_to_write_nil. now apply sd_write_cell_nil.
Qed.

Lemma sd_run_uniform (w : World) :
  exists r,
    (forall fs, sd_warn.run w fs = (r, fs)) \/
    (forall fs, sd_warn.run w fs = (r, <[sd_warn.outfile_name := sd_header_bytes]> fs)).
Proof.
  destruct (requests_get w sd_warn.url) as [e|req] eqn:Hget.
  { exists (Py.Raise e). left. intros fs. now rewrite sd_run_unfold, Hget. }
  destruct (bs4.find (py "table") (BeautifulSoup w (text req))) as [table|] eqn:Htable.
  2:{ exists (Py.Raise Py.AttributeError). left. intros fs.
      rewrite sd_run_unfold, Hget. unfold sd_warn.rows_of. now rewrite Htable. }
  destruct (writable w sd_warn.outfile_name) eqn:Hw.
  - exists (Py.Return tt). right. intros fs. eapply sd_run_opened; eassumption.
  - exists (Py.Raise Py.OSError). left. intros fs.
    rewrite sd_run_unfold, Hget. unfold sd_warn.rows_of. rewrite Htable.
    unfold sd_warn.write_cell, io.with_open, io.open_w, bind. now rewrite Hw.
Qed.

(** X7. Running a notebook again on the same page changes nothing: the
    second run ends as the first did and leaves the file system as the
    first left it (the file is opened with 'w', so no row is added twice). *)
Theorem running_again_changes_nothing (w : World) (fs : FS) :
  senate.run w (snd (senate.run w fs)) = senate.run w fs /\
  sd_warn.run w (snd (sd_warn.run w fs)) = sd_warn.run w fs.
Proof.
  split.
  - destruct (senate_run_uniform w) as (r & [H | (bytes & H)]).
    + now rewrite !H.
    + rewrite !H. cbn [snd]. now rewrite insert_insert_eq.
  - destruct (sd_run_uniform w) as (r & [H | H]).
    + now rewrite !H.
    + rewrite !H. cbn [snd]. now rewrite insert_insert_eq.
Qed.

(** X8. What the output file held before a run is gone once the file has
    been opened: with the page fetched, its table found and the file
    writable, a run over a file system where the file holds [old] ends as,
    and leaves what, a run where the file does not hold it. *)
Theorem old_content_is_replaced (w : World) (fs : FS) (old : list byte)
    (req_senate req_sd : Response) (table_senate table_sd : bs4.node) :
  requests_get w senate.url = Py.Return req_senate ->
  bs4.find (py "table") (BeautifulSoup w (text req_senate)) = Some table_senate ->
  writable w senate.outfile_name = true ->
  requests_get w sd_warn.url = Py.Return req_sd ->
  bs4.find (py "table") (BeautifulSoup w (text req_sd)) = Some table_sd ->
  writable w sd_warn.outfile_name = true ->
  senate.run w (<[senate.outfile_name := old]> fs) = senate.run w fs /\
  sd_warn.run w (<[sd_warn.outfile_name := old]> fs) = sd_warn.run w fs.
Proof.
  intros Hs Hts Hws Hd Htd Hwd.
  destruct (senate_run_opened w _ _ Hs Hts Hws) as (r & bytes & H).
  split.
  - rewrite !H. now rewrite insert_insert_eq.
  - rewrite !(sd_run_opened w _ _ _ Hd Htd Hwd). now rewrite insert_insert_eq.
Qed.

Lemma old_content_is_replaced_witness :
  senate.run fixtures.ragged_world
    (<[senate.outfile_name := list_byte_of_string "old,rows"]> more_fixtures.used_fs)
  = senate.run fixtures.ragged_world more_fixtures.used_fs.
Proof.
  refine (proj1 (old_content_is_replaced fixtures.ragged_world more_fixtures.used_fs
                   (list_byte_of_string "old,rows") fixtures.ok fixtures.ok
                   (bs4.Tag (py "table") [] fixtures.ragged_rows)
                   (bs4.Tag (py "table") [] fixtures.ragged_rows) _ _ _ _ _ _)).
  - reflexivity.
  - vm_compute; reflexivity.
  - reflexivity.
  - reflexivity.
  - vm_compute; reflexivity.
  - reflexivity.
Defined.

(** X9. Neither notebook looks at the status of the response: a page served
    with any status code (404, 500) is parsed and scraped like one served
    with 200. *)
Theorem runs_ignore_status_code (w : World) (code : N) (fs : FS) :
  senate.run (with_status w code) fs = senate.run w fs /\
  sd_warn.run (with_status w code) fs = sd_warn.run w fs.
Proof.
  split.
  - rewrite !senate_run_unfold. cbn [with_status requests_get].
    destruct (requests_get w senate.url); reflexivity.
  - rewrite !sd_run_unfold. cbn [with_status requests_get].
    destruct (requests_get w sd_warn.url); reflexivity.
Qed.

(** X10. A row with a character the locale's encoding lacks stops the Senate
    run: [writerow] raises UnicodeEncodeError, nothing of that row is
    written, and the file keeps the header line and the rows before it. *)
Theorem unencodable_row_stops_the_run (w : World) (fs : FS) (req : Response)
    (table hdr : bs4.node) (good : list bs4.node) (bad : bs4.node)
    (rest : list bs4.node) (recs : list (list Py.str)) (rec : list Py.str)
    (bytes : list byte) :
  requests_get w senate.url = Py.Return req ->
  bs4.find (py "table") (BeautifulSoup w (text req)) = Some table ->
  bs4.find_all (py "tr") table = hdr :: good ++ bad :: rest ->
  Forall2 (fun row rec => senate.extract row = Py.Return rec) good recs ->
  senate.extract bad = Py.Return rec ->
  codecs.encode (getencoding w) (csv.record rec) = None ->
  writable w senate.outfile_name = true ->
  codecs.encode (getencoding w) (csv_text recs) = Some bytes ->
  senate.run w fs
  = (Py.Raise Py.UnicodeEncodeError,
     <[senate.outfile_name := senate_header_bytes ++ bytes]> fs).
Proof.
  intros Hget Htable Hrows Hgood Hbad Hnone Hw Henc.
  rewrite senate_run_unfold, Hget. unfold senate.rows_of.
  rewrite Htable, Hrows. unfold Py.slice_from_1. cbn [skipn].
  rewrite skipn_O, senate_write_cell_unfold by assumption.
  set (f := {| io.name := _ |}).
  pose proof (senate_loop_app w f good (bad :: rest) recs fs
                senate_header_bytes bytes eq_refl Hgood Henc) as H.
  cbn [io.name f] in H. rewrite H. cbn [for_each]. unfold bind.
  rewrite body_extract, Hbad. unfold csv.writerow.
  now rewrite (write_raises w f _ _ eq_refl Hnone).
Qed.

Lemma unencodable_row_stops_the_run_witness :
  senate.run more_fixtures.polish_world ∅
  = (Py.Raise Py.UnicodeEncodeError,
     <[senate.outfile_name := senate_header_bytes ++ fixtures.accented_line_cp1252]> ∅).
Proof.
  refine (unencodable_row_stops_the_run more_fixtures.polish_world ∅ fixtures.ok
            (bs4.Tag (py "table") [] more_fixtures.polish_rows)
            more_fixtures.header_row [fixtures.accented_row]
            more_fixtures.polish_row [fixtures.member_row]
            [[py "Jos" ++ [233%N]; py "Mart" ++ [237%N]; py "El Pa" ++ [237%N] ++ py "s"]]
            [py "Stanis" ++ [322%N] ++ py "aw"; py "Lem"; py "Solaris"]
            fixtures.accented_line_cp1252 _ _ _ _ _ _ _ _).
  - reflexivity.
  - vm_compute; reflexivity.
  - vm_compute; reflexivity.
  - repeat constructor.
  - vm_compute; reflexivity.
  - vm_compute; reflexivity.
  - reflexivity.
  - vm_compute; reflexivity.
Defined.

(** Where the loop of the first notebook stops: at the first row whose
    extraction raises or whose line the encoding of the file lacks, the
    lines of the rows before it written. *)
Lemma senate_loop_stops (w : World) (f : io.TextIOWrapper)
    (rows : list bs4.node) (fs0 : FS) (cur : list byte) (e : Py.exn) :
  io.newline f = Some [] ->
  fst (for_each rows (senate.body w f) (<[io.name f := cur]> fs0)) = Py.Raise e ->
  exists good bad rest recs bs,
    rows = good ++ bad :: rest /\
    Forall2 (fun row rec => senate.extract row = Py.Return rec) good recs /\
    codecs.encode (io.encoding f) (csv_text recs) = Some bs /\
    (senate.extract bad = Py.Raise e \/
     exists rec, senate.extract bad = Py.Return rec /\
                 codecs.encode (io.encoding f) (csv.record rec) = None /\
                 e = Py.UnicodeEncodeError) /\
    snd (for_each rows (senate.body w f) (<[io.name f := cur]> fs0))
    = <[io.name f := cur ++ bs]> fs0.
Proof.
  intros Hnl. revert cur. induction rows as [|row rows IH]; intros cur Hfail.
  - discriminate.
  - destruct (senate.extract row) as [e'|rec] eqn:Hex.
    + assert (Hrun : for_each (row :: rows) (senate.body w f) (<[io.name f := cur]> fs0)
                     = (Py.Raise e', <[io.name f := cur]> fs0)).
      { cbn [for_each]. unfold bind. now rewrite body_extract, Hex. }
      rewrite Hrun in Hfail |- *. cbn [fst snd] in *. injection Hfail as ->.
      exists [], row, rows, [], []. rewrite app_nil_r.
      split; [reflexivity|]. split; [constructor|]. split; [reflexivity|].
      split; [now left|reflexivity].
    + destruct (codecs.encode (io.encoding f) (csv.record rec)) as [x|] eqn:Hx.
      * assert (Hstep : for_each (row :: rows) (senate.body w f)
                          (<[io.name f := cur]> fs0)
                        = for_each rows (senate.body w f)
                            (<[io.name f := cur ++ x]> fs0)).
        { cbn [for_each]. unfold bind. rewrite body_extract, Hex.
          unfold csv.writerow. now rewrite (write_appends _ _ _ _ _ x Hnl Hx). }
        rewrite Hstep in Hfail |- *.
        destruct (IH (cur ++ x) Hfail)
          as (good & bad & rest & recs & bs & -> & Hgood & Henc & Hbad & Hsnd).
        exists (row :: good), bad, rest, (rec :: recs), (x ++ bs).
        split; [reflexivity|]. split; [now constructor|]. split.
        { unfold csv_text. cbn [map concat]. fold (csv_text recs).
          now rewrite encode_app, Hx, Henc. }
        split; [exact Hbad|]. rewrite Hsnd. now rewrite <- app_assoc.
      * assert (Hrun : for_each (row :: rows) (senate.body w f) (<[io.name f := cur]> fs0)
                       = (Py.Raise Py.UnicodeEncodeError, <[io.name f := cur]> fs0)).
        { cbn [for_each]. unfold bind. rewrite body_extract, Hex.
          unfold csv.writerow. now rewrite (write_raises _ _ _ _ Hnl Hx). }
        rewrite Hrun in Hfail |- *. cbn [fst snd] in *. injection Hfail as <-.
        exists [], row, rows, [], []. rewrite app_nil_r.
        split; [reflexivity|]. split; [constructor|]. split; [reflexivity|].
        split; [|reflexivity]. right. exists rec. auto.
Qed.

(** X11. Whatever makes a run of the Senate notebook fail, the run has
    failed before the file was opened (the request, the missing table, the
    file that cannot be opened) and has left the file system as it was, or
    it has stopped at a data row, the first whose extraction raises or
    whose line the encoding of the file lacks, and the file it leaves is a
    well-formed CSV file: read back it is the header and the records of the
    rows before that row, all of them and no other. *)
Theorem failed_run_leaves_a_readable_file (limit : N) (w : World) (fs : FS)
    (e : Py.exn) :
  fst (senate.run w fs) = Py.Raise e ->
  (snd (senate.run w fs) = fs /\
   (requests_get w senate.url = Py.Raise e \/
    exists req,
      requests_get w senate.url = Py.Return req /\
      (bs4.find (py "table") (BeautifulSoup w (text req)) = None /\
       e = Py.AttributeError \/
       writable w senate.outfile_name = false /\ e = Py.OSError))) \/
  exists req table good bad rest recs bytes,
    requests_get w senate.url = Py.Return req /\
    bs4.find (py "table") (BeautifulSoup w (text req)) = Some table /\
    Py.slice_from_1 (bs4.find_all (py "tr") table) = good ++ bad :: rest /\
    Forall2 (fun row rec => senate.extract row = Py.Return rec) good recs /\
    codecs.encode (getencoding w) (csv_text recs) = Some bytes /\
    (senate.extract bad = Py.Raise e \/
     exists rec, senate.extract bad = Py.Return rec /\
                 codecs.encode (getencoding w) (csv.record rec) = None /\
                 e = Py.UnicodeEncodeError) /\
    snd (senate.run w fs)
    = <[senate.outfile_name := senate_header_bytes ++ bytes]> fs /\
    (Forall (Forall (fits limit)) (senate.headers :: recs) ->
     fst (csv_reader.read_csv limit w senate.outfile_name None (snd (senate.run w fs)))
     = Py.Return (senate.headers :: recs)).
Proof.
  intros Hfail.
  destruct (requests_get w senate.url) as [e'|req] eqn:Hget.
  { left. rewrite senate_run_unfold, Hget in Hfail |- *. cbn [fst snd] in *.
    injection Hfail as ->. split; [reflexivity | now left]. }
  destruct (bs4.find (py "table") (BeautifulSoup w (text req))) as [table|] eqn:Htable.
  2:{ left. rewrite senate_run_unfold, Hget in Hfail |- *.
      unfold senate.rows_of in Hfail |- *. rewrite Htable in Hfail |- *.
      cbn [fst snd] in *. injection Hfail as <-.
      split; [reflexivity|]. right. exists req. split; [reflexivity|]. now left. }
  destruct (writable w senate.outfile_name) eqn:Hw.
  2:{ left. rewrite senate_run_unfold, Hget in Hfail |- *.
      unfold senate.rows_of in Hfail |- *. rewrite Htable in Hfail |- *.
      unfold senate.write_cell, io.with_open, io.open_w, bind in Hfail |- *.
      rewrite Hw in Hfail |- *. cbn [fst snd] in *. injection Hfail as <-.
      split; [reflexivity|]. right. exists req. split; [reflexivity|]. now right. }
  right. rewrite senate_run_unfold, Hget in Hfail |- *.
  unfold senate.rows_of in Hfail |- *. rewrite Htable in Hfail |- *.
  rewrite senate_write_cell_unfold in Hfail |- * by assumption.
  destruct (senate_loop_stops w
              {| io.name := senate.outfile_name; io.encoding := getencoding w;
                 io.newline := Some [] |}
              _ fs senate_header_bytes e eq_refl Hfail)
    as (good & bad & rest & recs & bs & Hrows & Hgood & Henc & Hbad & Hsnd).
  cbn [io.name io.encoding] in Henc, Hbad, Hsnd.
  exists req, table, good, bad, rest, recs, bs.
  split; [reflexivity|]. split; [exact Htable|]. split; [exact Hrows|].
  split; [exact Hgood|]. split; [exact Henc|]. split; [exact Hbad|].
  split; [exact Hsnd|].
  intros Hfit. rewrite Hsnd.
  assert (Hall : codecs.encode (getencoding w) (csv_text (senate.headers :: recs))
                 = Some (senate_header_bytes ++ bs)).
  { unfold csv_text. cbn [map concat]. fold (csv_text recs).
    now rewrite encode_app, senate_header_encodes, Henc. }
  now rewrite (read_csv_written limit w fs senate.outfile_name None _ _ Hfit Hall).
Qed.

Lemma failed_run_leaves_a_readable_file_witness :
  (snd (senate.run fixtures.ragged_world ∅) = ∅ /\
   (requests_get fixtures.ragged_world senate.url = Py.Raise Py.IndexError \/
    exists req,
      requests_get fixtures.ragged_world senate.url = Py.Return req /\
      (bs4.find (py "table") (BeautifulSoup fixtures.ragged_world (text req)) = None /\
       Py.IndexError = Py.AttributeError \/
       writable fixtures.ragged_world senate.outfile_name = false /\
       Py.IndexError = Py.OSError))) \/
  exists req table good bad rest recs bytes,
    requests_get fixtures.ragged_world senate.url = Py.Return req /\
    bs4.find (py "table") (BeautifulSoup fixtures.ragged_world (text req)) = Some table /\
    Py.slice_from_1 (bs4.find_all (py "tr") table) = good ++ bad :: rest /\
    Forall2 (fun row rec => senate.extract row = Py.Return rec) good recs /\
    codecs.encode (getencoding fixtures.ragged_world) (csv_text recs) = Some bytes /\
    (senate.extract bad = Py.Raise Py.IndexError \/
     exists rec, senate.extract bad = Py.Return rec /\
                 codecs.encode (getencoding fixtures.ragged_world) (csv.record rec) = None /\
                 Py.IndexError = Py.UnicodeEncodeError) /\
    snd (senate.run fixtures.ragged_world ∅)
    = <[senate.outfile_name := senate_header_bytes ++ bytes]> ∅ /\
    (Forall (Forall (fits 131072)) (senate.headers :: recs) ->
     fst (csv_reader.read_csv 131072 fixtures.ragged_world senate.outfile_name None
            (snd (senate.run fixtures.ragged_world ∅)))
     = Py.Return (senate.headers :: recs)).
Proof.
  apply (failed_run_leaves_a_readable_file 131072 fixtures.ragged_world ∅ Py.IndexError).
  vm_compute; reflexivity.
Defined.

(** ** What the writer puts in a line *)

Lemma Forall_escape (P : N -> Prop) (f : Py.str) :
  P csv.quotechar -> Forall P f -> Forall P (escape f).
Proof.
  intros Hq Hf. unfold escape. induction Hf as [|c f Hc _ IH]; [constructor|].
  cbn [flat_map]. destruct (c =? csv.quotechar)%N; repeat constructor; assumption.
Qed.

Lemma Forall_join_append (P : N -> Prop) (f : Py.str) :
  P csv.quotechar -> Forall P f -> Forall P (csv.join_append f).
Proof.
  intros Hq Hf. rewrite join_append_spec.
  destruct (existsb csv.special f); [|assumption].
  constructor; [assumption|]. apply Forall_app. split; [|now repeat constructor].
  now apply Forall_escape.
Qed.

Lemma Forall_join (P : N -> Prop) (row : list Py.str) :
  P csv.quotechar -> P csv.delimiter ->
  Forall (Forall P) row -> Forall P (csv.join row).
Proof.
  intros Hq Hd Hrow. destruct row as [|f row]; [constructor|].
  rewrite join_cons. inversion Hrow as [|? ? Hf Hrest]; subst.
  apply Forall_app. split; [now apply Forall_join_append|].
  clear -Hq Hd Hrest. unfold tail_text.
  induction Hrest as [|g row Hg _ IH]; [constructor|].
  cbn [flat_map]. constructor; [assumption|].
  apply Forall_app. split; [now apply Forall_join_append | assumption].
Qed.

Lemma record_body (row : list Py.str) :
  exists body,
    csv.record row = body ++ csv.lineterminator /\
    forall P : N -> Prop,
      P csv.quotechar -> P csv.delimiter -> Forall (Forall P) row -> Forall P body.
Proof.
  unfold csv.record. destruct row as [|f row].
  - exists []. split; [reflexivity|]. constructor.
  - destruct (csv.join (f :: row)) as [|c l] eqn:E.
    + exists [csv.quotechar; csv.quotechar]. split; [reflexivity|].
      intros P Hq _ _. now repeat constructor.
    + exists (c :: l). split; [reflexivity|].
      intros P Hq Hd Hrow. rewrite <- E. now apply Forall_join.
Qed.

Lemma Forall_record (P : N -> Prop) (row : list Py.str) :
  P csv.quotechar -> P csv.delimiter -> P 13%N -> P 10%N ->
  Forall (Forall P) row -> Forall P (csv.record row).
Proof.
  intros Hq Hd H13 H10 Hrow.
  destruct (record_body row) as (body & -> & Hbody).
  apply Forall_app. split; [now apply Hbody | now repeat constructor].
Qed.

Lemma Forall_csv_text (P : N -> Prop) (rows : list (list Py.str)) :
  P csv.quotechar -> P csv.delimiter -> P 13%N -> P 10%N ->
  Forall (Forall (Forall P)) rows -> Forall P (csv_text rows).
Proof.
  intros Hq Hd H13 H10 Hrows. unfold csv_text.
  induction Hrows as [|row rows Hrow _ IH]; [constructor|].
  cbn [map concat]. apply Forall_app. split; [now apply Forall_record | assumption].
Qed.

(** X12. What [writerow] writes for a row: its fields, a comma between
    two of them, and CR LF at the end, where a field with no comma, quote,
    carriage return or line feed stands as it is and any other stands
    between quotes, each quote inside it doubled (so that it grows by the
    number of quotes it holds and the two around it).  The one exception is
    the row that is a single empty field, written as a pair of quotes; a
    row of no field is the line end alone. *)
Theorem field_quoting_rule (f : Py.str) (row : list Py.str) :
  (Forall (fun c => csv.special c = false) f -> csv.join_append f = f) /\
  (Exists (fun c => csv.special c = true) f ->
   csv.join_append f = [csv.quotechar] ++ escape f ++ [csv.quotechar]) /\
  length (escape f)
  = (length f + length (List.filter (fun c => (c =? csv.quotechar)%N) f))%nat /\
  csv.record [] = csv.lineterminator /\
  csv.record [[]] = [csv.quotechar; csv.quotechar] ++ csv.lineterminator /\
  (f :: row <> [[]] ->
   csv.record (f :: row)
   = csv.join_append f
     ++ flat_map (fun g => csv.delimiter :: csv.join_append g) row
     ++ csv.lineterminator).
Proof.
  split; [|split; [|split; [|split; [reflexivity|split; [reflexivity|]]]]].
  - intros H. rewrite join_append_spec.
    replace (existsb csv.special f) with false; [reflexivity|].
    symmetry. induction H as [|c f' Hc _ IH]; [reflexivity|].
    cbn [existsb]. now rewrite Hc, IH.
  - intros H. rewrite join_append_spec.
    replace (existsb csv.special f) with true; [reflexivity|].
    symmetry. apply existsb_exists. apply List.Exists_exists in H. exact H.
  - unfold escape. induction f as [|c f' IH]; [reflexivity|].
    cbn [flat_map List.filter]. rewrite length_app, IH.
    destruct (c =? csv.quotechar)%N; cbn [length]; lia.
  - intros Hne. unfold csv.record. rewrite join_cons.
    fold (tail_text row). rewrite (app_assoc (csv.join_append f)).
    destruct (csv.join_append f ++ tail_text row) as [|c l] eqn:E; [|reflexivity].
    exfalso. apply Hne. apply app_eq_nil in E as [Hf Hrow].
    destruct row as [|g row]; [|discriminate Hrow].
    rewrite join_append_spec in Hf.
    destruct (existsb csv.special f); [discriminate Hf | now subst].
Qed.

(** X13. Each row is one line of the file when no field holds a line break:
    the lines of the text [writerows] produces are the records of the rows,
    one for one and in order. *)
Theorem one_line_per_row (rows : list (list Py.str)) :
  Forall (Forall (Forall no_line_break)) rows ->
  csv_reader.readlines (csv_text rows) = map csv.record rows.
Proof.
  assert (Hline : forall body cur rest,
            Forall no_line_break body ->
            csv_reader.readlines_from cur (body ++ csv.lineterminator ++ rest)
            = (cur ++ body ++ csv.lineterminator) :: csv_reader.readlines_from [] rest).
  { induction body as [|c body IH]; intros cur rest Hb.
    - cbn [app]. change (csv.lineterminator ++ rest) with (13%N :: 10%N :: rest).
      rewrite readlines_cr_lf, readlines_lf. now rewrite <- app_assoc.
    - inversion Hb as [|? ? [H10 H13] Hb']; subst.
      change ((c :: body) ++ csv.lineterminator ++ rest)
        with (c :: body ++ csv.lineterminator ++ rest).
      rewrite readlines_plain by assumption. rewrite IH by assumption.
      now rewrite <- app_assoc. }
  intros Hrows. unfold csv_reader.readlines, csv_text.
  induction Hrows as [|row rows Hrow _ IH]; [reflexivity|].
  cbn [map concat].
  destruct (record_body row) as (body & E & Hbody). rewrite E at 1.
  rewrite <- app_assoc, Hline.
  - cbn [app]. rewrite IH, E. reflexivity.
  - apply Hbody; [split; discriminate | split; discriminate | assumption].
Qed.

Lemma one_line_per_row_witness :
  csv_reader.readlines (csv_text more_fixtures.notices)
  = map csv.record more_fixtures.notices.
Proof.
  apply (one_line_per_row more_fixtures.notices).
  repeat constructor; discriminate.
Defined.

(** ** Encodings *)

Lemma utf_8_encodes_scalar_values (s : Py.str) :
  Forall scalar_value s -> exists bs, codecs.encode codecs.utf_8 s = Some bs.
Proof.
  induction 1 as [|c s Hc _ (bs & IH)]; [now exists []|].
  cbn [codecs.encode codecs.encode_char]. rewrite IH.
  assert (exists x, codecs.utf_8_encode_char c = Some x) as (x & ->).
  { unfold codecs.utf_8_encode_char, scalar_value in *.
    destruct (N.ltb_spec c 128); [eauto|].
    destruct (N.ltb_spec c 2048); [eauto|].
    destruct (N.ltb_spec c 65536).
    - destruct (N.leb_spec 55296 c), (N.leb_spec c 57343); cbn; eauto. lia.
    - destruct (N.ltb_spec c 1114112); [eauto|lia]. }
  eauto.
Qed.

Lemma ascii_encodes_alike (e : codecs.Encoding) (s : Py.str) :
  Forall (fun c => (c < 128)%N) s ->
  codecs.encode e s = Some (map codecs.byte_of s).
Proof.
  induction 1 as [|c s Hc _ IH]; [reflexivity|].
  cbn [codecs.encode map]. rewrite IH.
  replace (codecs.encode_char e c) with (Some [codecs.byte_of c]); [reflexivity|].
  apply N.ltb_lt in Hc.
  destruct e; cbn [codecs.encode_char];
    unfold codecs.utf_8_encode_char, codecs.cp1252_encode_char; now rewrite Hc.
Qed.

(** X14. Text that a file's encoding can encode decodes to itself, in UTF-8
    as in code page 1252; so two texts never encode to the same bytes. *)
Theorem encoded_text_decodes (e : codecs.Encoding) (s s' : Py.str) (bs : list byte) :
  codecs.encode e s = Some bs ->
  codecs.decode e bs = Some s /\
  (codecs.encode e s' = Some bs -> s' = s).
Proof.
  intros H. split; [now apply decode_encode|].
  intros H'. apply decode_encode in H, H'. congruence.
Qed.

Lemma encoded_text_decodes_witness :
  codecs.decode codecs.utf_8
    (list_byte_of_string "Caf" ++ [xc3; xa9; xe2; x82; xac; xf0; x9f; x93; x84])
  = Some (py "Caf" ++ [233; 8364; 128196]%N).
Proof.
  refine (proj1 (encoded_text_decodes codecs.utf_8 (py "Caf" ++ [233; 8364; 128196]%N) []
                   _ _)).
  vm_compute; reflexivity.
Defined.

(** X15. The cell that writes the file of the second notebook, given rows of
    any text UTF-8 can encode: it ends normally, the file holds the header
    line and the lines of the rows in UTF-8 on every machine, and read back
    it is the header and the rows. *)
Theorem sd_write_cell_writes_rows (limit : N) (w : World) (fs : FS)
    (data : list (list Py.str)) :
  writable w sd_warn.outfile_name = true ->
  Forall (Forall (Forall scalar_value)) data ->
  exists bytes,
    codecs.encode codecs.utf_8 (csv_text data) = Some bytes /\
    sd_warn.write_cell w data fs
    = (Py.Return tt, <[sd_warn.outfile_name := sd_header_bytes ++ bytes]> fs) /\
    (Forall (Forall (fits limit)) (sd_warn.csv_headers :: data) ->
     fst (csv_reader.read_csv limit w sd_warn.outfile_name (Some codecs.utf_8)
            (<[sd_warn.outfile_name := sd_header_bytes ++ bytes]> fs))
     = Py.Return (sd_warn.csv_headers :: data)).
Proof.
  intros Hw Hdata.
  destruct (utf_8_encodes_scalar_values (csv_text data)) as (bytes & Henc).
  { apply Forall_csv_text; try assumption; left; reflexivity. }
  exists bytes. split; [assumption|]. split; [now apply sd_file_is_utf_8|].
  intros Hfit.
  assert (Hall : codecs.encode codecs.utf_8 (csv_text (sd_warn.csv_headers :: data))
                 = Some (sd_header_bytes ++ bytes)).
  { unfold csv_text. cbn [map concat]. fold (csv_text data).
    now rewrite encode_app, sd_header_encodes, Henc. }
  now rewrite (read_csv_written limit w fs sd_warn.outfile_name (Some codecs.utf_8)
                 _ _ Hfit Hall).
Qed.

Lemma sd_write_cell_writes_rows_witness :
  exists bytes,
    codecs.encode codecs.utf_8 (csv_text more_fixtures.notices) = Some bytes /\
    sd_warn.write_cell fixtures.windows_world more_fixtures.notices ∅
    = (Py.Return tt, <[sd_warn.outfile_name := sd_header_bytes ++ bytes]> ∅) /\
    (Forall (Forall (fits 131072)) (sd_warn.csv_headers :: more_fixtures.notices) ->
     fst (csv_reader.read_csv 131072 fixtures.windows_world sd_warn.outfile_name
            (Some codecs.utf_8)
            (<[sd_warn.outfile_name := sd_header_bytes ++ bytes]> ∅))
     = Py.Return (sd_warn.csv_headers :: more_fixtures.notices)).
Proof.
  apply (sd_write_cell_writes_rows 131072 fixtures.windows_world ∅ more_fixtures.notices).
  - reflexivity.
  - repeat constructor; unfold scalar_value; lia.
Defined.

(** X16. A table of plain ASCII text gives the same Senate file on every
    machine: each character goes out as the byte of its code, whatever the
    encoding of the locale. *)
Theorem ascii_table_same_file_everywhere (w : World) (fs : FS) (req : Response)
    (table hdr : bs4.node) (data : list bs4.node) :
  requests_get w senate.url = Py.Return req ->
  bs4.find (py "table") (BeautifulSoup w (text req)) = Some table ->
  bs4.find_all (py "tr") table = hdr :: data ->
  Forall (fun row => (3 <= length (bs4.find_all (py "td") row))%nat) data ->
  Forall (Forall (Forall (fun c => (c < 128)%N))) (map trimmed_cells data) ->
  writable w senate.outfile_name = true ->
  senate.run w fs
  = (Py.Return tt,
     <[senate.outfile_name :=
         senate_header_bytes ++ map codecs.byte_of (csv_text (map trimmed_cells data))]> fs).
Proof.
  intros Hget Htable Hrows Hdata Hascii Hw.
  assert (Henc : codecs.encode (getencoding w) (csv_text (map trimmed_cells data))
                 = Some (map codecs.byte_of (csv_text (map trimmed_cells data)))).
  { apply ascii_encodes_alike. apply Forall_csv_text; try assumption; reflexivity. }
  rewrite senate_run_unfold, Hget. unfold senate.rows_of.
  rewrite Htable, Hrows. unfold Py.slice_from_1. cbn [skipn].
  rewrite skipn_O, senate_write_cell_unfold by assumption.
  set (f := {| io.name := _ |}).
  assert (Hex : Forall2 (fun row rec => senate.extract row = Py.Return rec)
                  data (map trimmed_cells data)).
  { clear -Hdata. induction Hdata; constructor; auto using extract_trimmed_cells. }
  pose proof (senate_loop_app w f data [] (map trimmed_cells data) fs
                senate_header_bytes _ eq_refl Hex Henc) as H.
  cbn [io.name f] in H. rewrite app_nil_r in H. exact H.
Qed.

Lemma ascii_table_same_file_everywhere_witness :
  senate.run (fixtures.serving (fixtures.page [more_fixtures.header_row;
                                               fixtures.member_row]) codecs.cp1252) ∅
  = (Py.Return tt,
     <[senate.outfile_name :=
         senate_header_bytes
         ++ map codecs.byte_of (csv_text (map trimmed_cells [fixtures.member_row]))]> ∅).
Proof.
  refine (ascii_table_same_file_everywhere _ ∅ fixtures.ok
            (bs4.Tag (py "table") [] [more_fixtures.header_row; fixtures.member_row])
            more_fixtures.header_row [fixtures.member_row] _ _ _ _ _ _).
  - reflexivity.
  - vm_compute; reflexivity.
  - vm_compute; reflexivity.
  - repeat constructor.
  - vm_compute. repeat constructor.
  - reflexivity.
Defined.

(** ** Different rows, different files *)

Lemma fits_bound (rows : list (list Py.str)) :
  exists limit, forall limit', (limit <= limit')%N -> Forall (Forall (fits limit')) rows.
Proof.
  induction rows as [|row rows (L & IH)].
  - exists 0%N. constructor.
  - assert (exists Lr, forall limit', (Lr <= limit')%N -> Forall (fits limit') row)
      as (Lr & Hr).
    { induction row as [|f row (Lr & IHr)].
      - exists 0%N. constructor.
      - exists (N.max (N.of_nat (length f)) Lr). intros limit' Hle.
        constructor; [unfold fits; lia | apply IHr; lia]. }
    exists (N.max Lr L). intros limit' Hle.
    constructor; [apply Hr; lia | apply IH; lia].
Qed.

(** X17. The writer loses nothing: lists of rows that differ in any field,
    in the number of fields of a row or in the number of rows give
    different texts. *)
Theorem csv_text_injective (rows1 rows2 : list (list Py.str)) :
  csv_text rows1 = csv_text rows2 -> rows1 = rows2.
Proof.
  intros E.
  destruct (fits_bound rows1) as (L1 & H1), (fits_bound rows2) as (L2 & H2).
  pose proof (reader_csv_text (N.max L1 L2) rows1 (H1 _ (N.le_max_l _ _))) as R1.
  pose proof (reader_csv_text (N.max L1 L2) rows2 (H2 _ (N.le_max_r _ _))) as R2.
  rewrite E in R1. congruence.
Qed.

Lemma csv_text_injective_witness : fixtures.awkward_rows = fixtures.awkward_rows.
Proof. exact (csv_text_injective fixtures.awkward_rows fixtures.awkward_rows eq_refl). Defined.

(** ** Machines *)

(** X18. Both files are opened with [newline='']: on two machines that
    differ in the line separator of the operating system only, a notebook
    ends the same way and leaves the same bytes. *)
Theorem line_endings_are_the_same_everywhere (w w' : World) (fs : FS) :
  requests_get w' = requests_get w ->
  BeautifulSoup w' = BeautifulSoup w ->
  getencoding w' = getencoding w ->
  writable w' = writable w ->
  senate.run w' fs = senate.run w fs /\ sd_warn.run w' fs = sd_warn.run w fs.
Proof.
  intros Hg Hb He Hw.
  replace w' with (with_linesep w (linesep w')).
  - apply runs_ignore_linesep.
  - destruct w'. unfold with_linesep. cbn in *. now subst.
Qed.

Lemma line_endings_are_the_same_everywhere_witness :
  senate.run (with_linesep fixtures.ragged_world [13; 10]%N) ∅
  = senate.run fixtures.ragged_world ∅.
Proof.
  refine (proj1 (line_endings_are_the_same_everywhere fixtures.ragged_world
                   (with_linesep fixtures.ragged_world [13; 10]%N) ∅ _ _ _ _));
    reflexivity.
Defined.

(** X19. A run creates or changes its own output file and no other: every
    other path holds after the run what it held before.  A run of the
    Senate notebook leaves alone every path but us-senate-press-gallery.csv,
    the file of the other notebook with them; a run of the SD WARN notebook
    leaves alone every path but sd-warn-notices.csv, the file of the Senate
    notebook with them. *)
Theorem runs_touch_only_their_file (w : World) (fs : FS)
    (not_senate not_sd : string) :
  not_senate <> senate.outfile_name ->
  not_sd <> sd_warn.outfile_name ->
  snd (senate.run w fs) !! not_senate = fs !! not_senate /\
  snd (sd_warn.run w fs) !! not_sd = fs !! not_sd /\
  snd (senate.run w fs) !! sd_warn.outfile_name = fs !! sd_warn.outfile_name /\
  snd (sd_warn.run w fs) !! senate.outfile_name = fs !! senate.outfile_name.
Proof.
  assert (Hsd : forall path, path <> sd_warn.outfile_name ->
                             snd (sd_warn.run w fs) !! path = fs !! path).
  { intros path Hne. destruct (sd_run_uniform w) as (r & [H | H]); rewrite H; cbn [snd];
      [reflexivity | now rewrite lookup_insert_ne]. }
  intros Hs Hd. split; [|split; [|split]].
  - now apply senate_run_frame.
  - now apply Hsd.
  - apply senate_run_frame. discriminate.
  - apply Hsd. discriminate.
Qed.

Lemma runs_touch_only_their_file_witness :
  snd (senate.run more_fixtures.members_world more_fixtures.used_fs)
    !! sd_warn.outfile_name
  = more_fixtures.used_fs !! sd_warn.outfile_name /\
  snd (sd_warn.run more_fixtures.members_world more_fixtures.used_fs)
    !! senate.outfile_name
  = more_fixtures.used_fs !! senate.outfile_name /\
  snd (senate.run more_fixtures.members_world more_fixtures.used_fs)
    !! sd_warn.outfile_name
  = more_fixtures.used_fs !! sd_warn.outfile_name /\
  snd (sd_warn.run more_fixtures.members_world more_fixtures.used_fs)
    !! senate.outfile_name
  = more_fixtures.used_fs !! senate.outfile_name.
Proof.
  apply (runs_touch_only_their_file more_fixtures.members_world more_fixtures.used_fs
           sd_warn.outfile_name senate.outfile_name); discriminate.
Defined.
